(** * The Khamenei index: threat scorer, signal normalizers and aggregator

    A shallow embedding of [signals/__init__.py], [signals/telegram_signal.py],
    [signals/rial_signal.py], [signals/silence_signal.py], [aggregator.py]
    and the loop of [main.py], and the properties the design document states
    about them, with further properties read off the code.

    Conventions of the embedding:
    - a Python [int] is a [Z]; a Python [float] is an exact rational [Q]
      (binary rounding is not modelled), compared with [==], [<=] and [<];
      nor is the [OverflowError] modelled that Python raises for an integer
      beyond the range of a float: a property that depends on it bounds the
      numbers it is about;
    - a Python [str] is a [string] holding its UTF-8 bytes; a keyword occurs
      in a text as a run of code points exactly when its bytes occur as a run
      of bytes, so [kw in text] is byte-wise substring search;
    - a [datetime] is a number of microseconds on the UTC time line, a
      [timedelta] a difference of two;
    - every read of [datetime.utcnow()] is an explicit argument;
    - what a collaborator hands back (rows of a query, a scraped page) is an
      argument of the function that asks for it. *)

From Stdlib Require Import ZArith QArith Qminmax Qround Qabs Lqa Lia.
From Stdlib Require Import String Ascii List Bool.
From stdpp Require Import gmap strings list.

Local Open Scope Z_scope.

(** ** Python primitives *)

Module Py.

(** [kw in text] for two strings: [kw] is a prefix of some suffix of [text]. *)
Fixpoint str_in (kw text : string) : bool :=
  String.prefix kw text ||
  match text with
  | EmptyString => false
  | String _ rest => str_in kw rest
  end.

(** [any(kw in text for kw in kws)] *)
Definition any_in (kws : list string) (text : string) : bool :=
  existsb (fun kw => str_in kw text) kws.

(** Truth value of a string that may be [None]: [None] and [''] are false. *)
Definition str_truthy (text : option string) : bool :=
  match text with
  | None => false
  | Some EmptyString => false
  | Some (String _ _) => true
  end.

(** A byte [10xxxxxx] continues a code point that started earlier. *)
Definition is_continuation (c : ascii) : bool :=
  let n := nat_of_ascii c in (128 <=? n)%nat && (n <? 192)%nat.

(** [s[:n]]: the first [n] code points of [s]. *)
Fixpoint str_take (n : nat) (s : string) : string :=
  match s with
  | EmptyString => EmptyString
  | String c rest =>
      if is_continuation c then String c (str_take n rest)
      else match n with
           | O => EmptyString
           | S n' => String c (str_take n' rest)
           end
  end.

(** Comparisons of floats as booleans. *)
Definition Qlt_bool (a b : Q) : bool := negb (Qle_bool b a).
Definition Qge_bool (a b : Q) : bool := Qle_bool b a.
Definition Qgt_bool (a b : Q) : bool := Qlt_bool b a.

(** [min(a, b)] and [max(a, b)]: the first argument wins a tie. *)
Definition min (a b : Q) : Q := if Qlt_bool b a then b else a.
Definition max (a b : Q) : Q := if Qgt_bool b a then b else a.

(** Truth value of a number: zero is false. *)
Definition num_truthy (x : Q) : bool := negb (Qeq_bool x 0).

(** [round(x, ndigits)]: to the nearest multiple of [10^-ndigits], a tie
    going to the even one. *)
Definition round_half_even (x : Q) : Z :=
  let f := Qfloor x in
  let r := (x - inject_Z f)%Q in
  if Qlt_bool r (1 # 2) then f
  else if Qlt_bool (1 # 2) r then f + 1
  else if Z.even f then f else f + 1.

Definition round (x : Q) (ndigits : nat) : Q :=
  let scale := inject_Z (10 ^ Z.of_nat ndigits) in
  (inject_Z (round_half_even (x * scale)) / scale)%Q.

(** Exceptions a modelled function can let escape, and results. *)
Inductive exn : Type :=
| ZeroDivisionError.

Inductive result (A : Type) : Type :=
| Ok (a : A)
| Raise (e : exn).
Arguments Ok {A} a.
Arguments Raise {A} e.

Definition bind {A B : Type} (r : result A) (k : A -> result B) : result B :=
  match r with
  | Ok a => k a
  | Raise e => Raise e
  end.

(** [a / b] on floats. *)
Definition truediv (a b : Q) : result Q :=
  if Qeq_bool b 0 then Raise ZeroDivisionError else Ok (a / b)%Q.

(** Values kept in evidence dictionaries. *)
#[warnings="-register-all"]
Inductive value : Type :=
| Int (z : Z)
| Float (q : Q)
| Str (s : string)
| List (l : list value)
| Dict (d : list (string * value)).

End Py.

Notation "x <- r ;; k" := (Py.bind r (fun x => k))
  (at level 100, r at next level, right associativity).

Abbreviation datetime := Z (only parsing).
Abbreviation timedelta := Z (only parsing).

Definition microseconds_per_minute : Z := 60 * 1000000.
Definition microseconds_per_hour : Z := 60 * microseconds_per_minute.
Definition microseconds_per_day : Z := 24 * microseconds_per_hour.

(** ** signals/__init__.py *)

Module Signals.

Record SignalOutput : Type := {
  name : string;
  value : Q;
  raw_value : list (string * Py.value);
  confidence : Q;
  timestamp : datetime
}.

End Signals.

(** ** signals/telegram_signal.py *)

Module TelegramSignal.

Definition KHAMENEI_KEYWORDS : list string :=
  [ "خامنه‌ای";
    "خامنه ای";
    "رهبر انقلاب";
    "رهبر معظم";
    "رهبر جمهوری اسلامی";
    "آیت‌الله خامنه‌ای" ].

Definition CRITICAL_KEYWORDS : list string :=
  [ (* Death / Health *)
    "مرگ";
    "فوت";
    "درگذشت";
    "بیمارستان";
    "بستری";
    "سکته";
    "حمله قلبی";
    "عمل جراحی";
    "وخیم";
    "بحرانی";
    "حال عمومی";
    "ناتوانی";
    "ناتوانی از انجام وظایف";
    "غیرفعال";
    (* Absence / Disappearance *)
    "غیبت";
    "ناپدید";
    "عدم حضور";
    (* Succession / Transition *)
    "جانشین";
    "جانشینی";
    "انتخاب جانشین";
    "اعلام جانشین";
    "نامزدهای احتمالی";
    "مرحله گذار";
    "شورای انتقالی";
    "تعیین سرپرست";
    "معاون رهبری";
    (* Institutional Signals *)
    "مجلس خبرگان";
    "خبرگان رهبری";
    "جلسه فوق‌العاده خبرگان";
    "جلسه اضطراری";
    "گزارش محرمانه خبرگان";
    (* Leaving / Removal *)
    "استعفا";
    "کناره‌گیری";
    "برکناری";
    "عزل";
    "سلب صلاحیت";
    "لغو اختیار";
    "پایان رهبری";
    "تمام شدن دوره";
    (* Funeral / State Signals *)
    "عزای عمومی";
    "نماز میت";
    "وصیت" ].

Definition ROUTINE_KEYWORDS : list string :=
  [ "دیدار";
    "سخنرانی";
    "پیام";
    "بیانیه";
    "تشکر";
    "قدردانی";
    "سالگرد";
    "مراسم";
    "تبریک";
    "حکم";
    "انتصاب" ].

(** *** The threat scorer, over injected keyword lists *)

Section Scorer.

Variables khamenei_keywords critical_keywords routine_keywords : list string.

Definition slogan_patterns : list string := ["مرگ بر خامنه"; "مرگ بر"].

Definition is_slogan (text : string) : bool := Py.any_in slogan_patterns text.

(** The loop over the critical keywords: +2 for each one present, the
    mortality keyword skipped when the slogan matched. *)
Definition critical_step (text : string) (score : Z) (kw : string) : Z :=
  if Py.str_in kw text then
    if String.eqb kw "مرگ" && is_slogan text then score
    else score + 2
  else score.

(** The loop over the routine keywords: -1 for each one present. *)
Definition routine_step (text : string) (score : Z) (kw : string) : Z :=
  if Py.str_in kw text then score - 1 else score.

Definition hospital_boost (text : string) : bool :=
  Py.any_in ["بیمارستان"; "بستری"; "سکته"] text &&
  Py.any_in ["وخیم"; "بحرانی"; "حال"] text.

Definition succession_boost (text : string) : bool :=
  Py.str_in "جانشین" text && Py.str_in "خبرگان" text.

(** The condition of the mortality floor rule. *)
Definition floor_rule_fires (text : string) : bool :=
  Py.any_in ["فوت"; "درگذشت"] text && negb (is_slogan text).

Definition score_message_with (text : option string) : Z :=
  if negb (Py.str_truthy text) then -1
  else
    let text := default "" text in
    let score := 0 in
    let has_khamenei := Py.any_in khamenei_keywords text in
    if negb has_khamenei then -1
    else
      let score := fold_left (critical_step text) critical_keywords score in
      let score := fold_left (routine_step text) routine_keywords score in
      let score := if hospital_boost text then score + 3 else score in
      let score := if succession_boost text then score + 3 else score in
      let score := if floor_rule_fires text then Z.max score 4 else score in
      Z.max (-1) (Z.min 5 score).

End Scorer.

Definition _score_message (text : option string) : Z :=
  score_message_with KHAMENEI_KEYWORDS CRITICAL_KEYWORDS ROUTINE_KEYWORDS text.

(** *** The velocity normalizer *)

(** A row of the query: [message_text, message_date, channel_title]. *)
Record Row : Type := {
  message_text : option string;
  message_date : string;
  channel_title : string
}.

(** What [self.client.query(query)] does: it raises, or it hands back rows. *)
Inductive QueryOutcome : Type :=
| QueryRaised (e : string)
| ResultRows (result_rows : list Row).

(** An entry of [critical_messages]. *)
Record CriticalMessage : Type := {
  text : string;
  score : Z;
  channel : string;
  date : string
}.

Definition critical_message_value (m : CriticalMessage) : Py.value :=
  Py.Dict [("text", Py.Str (text m)); ("score", Py.Int (score m));
           ("channel", Py.Str (channel m)); ("date", Py.Str (date m))].

(** One turn of the loop over the rows, on the three lists it fills. *)
Definition classify_step
    (acc : list CriticalMessage * list string * list string) (row : Row)
    : list CriticalMessage * list string * list string :=
  let '(critical_messages, routine_messages, unclear_messages) := acc in
  if negb (Py.str_truthy (message_text row)) then acc
  else
    let msg_text := default "" (message_text row) in
    let score := _score_message (Some msg_text) in
    if 3 <=? score then
      (critical_messages ++
         [ {| text := Py.str_take 100 msg_text; score := score;
              channel := channel_title row; date := message_date row |} ],
       routine_messages, unclear_messages)
    else if score <=? 0 then
      (critical_messages, routine_messages ++ [Py.str_take 50 msg_text],
       unclear_messages)
    else
      (critical_messages, routine_messages,
       unclear_messages ++ [Py.str_take 50 msg_text]).

Definition window_hours : Z := 24.

Definition fetch (now : datetime) (outcome : QueryOutcome) : Signals.SignalOutput :=
  match outcome with
  | QueryRaised e =>
      {| Signals.name := "telegram_velocity";
         Signals.value := 0;
         Signals.raw_value := [("error", Py.Str e)];
         Signals.confidence := 0;
         Signals.timestamp := now |}
  | ResultRows messages =>
      let '(critical_messages, routine_messages, unclear_messages) :=
        fold_left classify_step messages ([], [], []) in
      let critical_count := length critical_messages in
      let normalized : Q :=
        (if (critical_count =? 0)%nat then 0
         else if (critical_count =? 1)%nat then 25
         else if (critical_count =? 2)%nat then 50
         else if (critical_count =? 3)%nat then 75
         else 100)%Q in
      let critical_channels :=
        size (list_to_set (map channel critical_messages) : gset string) in
      let normalized :=
        if (2 <=? critical_channels)%nat then Py.min 100 (normalized * 1.3)%Q
        else normalized in
      let normalized :=
        if (3 <=? critical_channels)%nat then Py.min 100 (normalized * 1.5)%Q
        else normalized in
      let total_messages := length messages in
      let confidence : Q :=
        (if (total_messages =? 0)%nat then 0.3
         else if (total_messages <? 10)%nat then 0.6
         else 0.9)%Q in
      {| Signals.name := "telegram_velocity";
         Signals.value := normalized;
         Signals.raw_value :=
           [("critical_count", Py.Int (Z.of_nat critical_count));
            ("critical_messages",
             Py.List (map critical_message_value (take 5 critical_messages)));
            ("routine_count", Py.Int (Z.of_nat (length routine_messages)));
            ("unclear_count", Py.Int (Z.of_nat (length unclear_messages)));
            ("total_khamenei_mentions", Py.Int (Z.of_nat total_messages));
            ("channels_reporting_critical", Py.Int (Z.of_nat critical_channels));
            ("window_hours", Py.Int window_hours)];
         Signals.confidence := confidence;
         Signals.timestamp := now |}
  end.

(** *** The normalizer as the design document words it *)

(** A row counts as critical when its text is not empty and scores 3 or more. *)
Definition is_critical (row : Row) : bool :=
  Py.str_truthy (message_text row) && (3 <=? _score_message (message_text row)).

Definition critical_rows (messages : list Row) : list Row :=
  List.filter is_critical messages.

Definition critical_count_of (messages : list Row) : nat :=
  length (critical_rows messages).

Definition critical_channels_of (messages : list Row) : nat :=
  size (list_to_set (map channel_title (critical_rows messages)) : gset string).

(** 0→0, 1→25, 2→50, 3→75, ≥4→100 *)
Definition step_value (count : nat) : Q :=
  match count with
  | 0%nat => 0%Q
  | 1%nat => 25%Q
  | 2%nat => 50%Q
  | 3%nat => 75%Q
  | _ => 100%Q
  end.

(** ×1.5 from three distinct channels on, ×1.3 for two, cap at 100. *)
Definition channel_factor (channels : nat) : Q :=
  (if (3 <=? channels)%nat then 1.5
   else if (2 <=? channels)%nat then 1.3
   else 1)%Q.

Definition velocity_spec (count channels : nat) : Q :=
  Qmin 100 (step_value count * channel_factor channels).

End TelegramSignal.

(** ** signals/rial_signal.py *)

Module RialSignal.

(** The signal's own state: a [deque(maxlen=...)] of [(timestamp, rate)]
    samples, oldest first, and the last rate fetched. *)
Record RialSignal : Type := {
  price_history : list (datetime * Z);
  maxlen : nat;
  last_fetch_rate : option Z
}.

Definition __init__ (history_hours : nat) : RialSignal :=
  {| price_history := [];
     maxlen := history_hours * 12;
     last_fetch_rate := None |}.

(** [deque.append] under [maxlen]: a full deque drops its oldest entry. *)
Definition deque_append {A : Type} (maxlen : nat) (d : list A) (x : A) : list A :=
  if (maxlen =? 0)%nat then []
  else if (maxlen <=? length d)%nat then drop 1 d ++ [x]
  else d ++ [x].

(** Find closest historical rate at or before target time. *)
Definition _get_rate_at (self : RialSignal) (target_time : datetime) : option Z :=
  snd <$> List.find (fun sample => fst sample <=? target_time)
                    (rev (price_history self)).

(** What fetching and parsing the page comes to: the request raises, the
    parsing raises, or the parsing ends with [current_rate] set or still
    [None]; [html] is the page's text. *)
Inductive Scrape : Type :=
| FetchRaised (e : string)
| ParseRaised (e : string) (html : string)
| Parsed (current_rate : option Z) (html : string).

(** Truth value of a rate that may be [None]: [None] and [0] are false. *)
Definition rate_truthy (rate : option Z) : bool :=
  match rate with
  | None => false
  | Some r => negb (r =? 0)
  end.

(** [((current_rate - past_rate) / past_rate) * 100 if past_rate else 0] *)
Definition pct_change (current_rate : Z) (past_rate : option Z) : Q :=
  if rate_truthy past_rate then
    let past_rate := default 0 past_rate in
    ((inject_Z (current_rate - past_rate) / inject_Z past_rate) * 100)%Q
  else 0%Q.

(** Normalize: 5% crash in 1hr = 100 *)
Definition normalize (pct_change_1h : Q) : Q :=
  if Py.Qgt_bool pct_change_1h 0 then Py.min 100 (pct_change_1h * 20)%Q
  else 0%Q.

Definition failure (now : datetime) (evidence : list (string * Py.value))
    : Signals.SignalOutput :=
  {| Signals.name := "rial_crash";
     Signals.value := 0;
     Signals.raw_value := evidence;
     Signals.confidence := 0;
     Signals.timestamp := now |}.

Definition fetch (self : RialSignal) (now : datetime) (page : Scrape)
    : Signals.SignalOutput * RialSignal :=
  match page with
  | FetchRaised e =>
      (failure now [("error", Py.Str ("fetch_failed: " +:+ e))], self)
  | ParseRaised e html =>
      (failure now [("error", Py.Str ("parse_failed: " +:+ e));
                    ("html_snippet", Py.Str (Py.str_take 500 html))], self)
  | Parsed current_rate html =>
      if negb (rate_truthy current_rate) then
        (failure now [("error", Py.Str "rate_not_found");
                      ("html_snippet", Py.Str (Py.str_take 500 html))], self)
      else
        let current_rate := default 0 current_rate in
        let self :=
          {| price_history :=
               deque_append (maxlen self) (price_history self) (now, current_rate);
             maxlen := maxlen self;
             last_fetch_rate := Some current_rate |} in
        let one_hour_ago := now - 1 * microseconds_per_hour in
        let past_rate := _get_rate_at self one_hour_ago in
        let pct_change_1h := pct_change current_rate past_rate in
        let four_hours_ago := now - 4 * microseconds_per_hour in
        let past_rate_4h := _get_rate_at self four_hours_ago in
        let pct_change_4h := pct_change current_rate past_rate_4h in
        let normalized := normalize pct_change_1h in
        let history_minutes := Z.of_nat (length (price_history self)) * 5 in
        let confidence :=
          Py.min 0.95 (0.5 + (inject_Z history_minutes / 120) * 0.45)%Q in
        ({| Signals.name := "rial_crash";
            Signals.value := normalized;
            Signals.raw_value :=
              [("rate", Py.Int current_rate);
               ("change_1h_pct", Py.Float (Py.round pct_change_1h 2));
               ("change_4h_pct", Py.Float (Py.round pct_change_4h 2));
               ("history_depth_minutes", Py.Int history_minutes)];
            Signals.confidence := confidence;
            Signals.timestamp := now |}, self)
  end.

End RialSignal.

(** ** aggregator.py *)

Module Aggregator.

(** An entry of the [signals] breakdown of an index. *)
Inductive Summary : Type :=
| SignalSummary (value confidence : Q) (raw : list (string * Py.value))
| TimePressure (multiplier raw_score : Q).

Record KhameneiIndex : Type := {
  score : Q;
  confidence : Q;
  level : string;
  signals : gmap string Summary;
  timestamp : datetime;
  days_remaining : Z;
  market_deadline : string
}.

Record Thresholds : Type := {
  yellow : Q;
  red : Q
}.

(** The aggregator object. [weights] keeps the order of the dictionary. *)
Record KhameneiAggregator : Type := {
  self_market_deadline : string;
  deadline_date : datetime;
  weights : list (string * Q);
  thresholds : Thresholds;
  history : list KhameneiIndex;
  max_history : nat
}.

(** [deadline_date] is what [datetime.strptime(market_deadline, "%Y-%m-%d")]
    returns. *)
Definition __init__ (market_deadline : string) (deadline_date : datetime)
    : KhameneiAggregator :=
  {| self_market_deadline := market_deadline;
     deadline_date := deadline_date;
     weights := [("telegram_velocity", 0.60%Q);
                 ("rial_crash", 0.40%Q);
                 ("state_media_silence", 0.00%Q)];
     thresholds := {| yellow := 35; red := 65 |};
     history := [];
     max_history := 60 |}.

(** [delta.days] is the floor of the difference in days. *)
Definition get_days_remaining (self : KhameneiAggregator) (now : datetime) : Z :=
  let delta := deadline_date self - now in
  Z.max 0 (delta / microseconds_per_day).

(** The multiplier at a number of days remaining. *)
Definition time_pressure_multiplier (days : Z) : Q :=
  if days >=? 60 then 1.0%Q
  else if days >=? 30 then (1.0 + inject_Z (60 - days) / 150)%Q
  else if days >=? 14 then (1.2 + inject_Z (30 - days) / 53)%Q
  else if days >=? 7 then (1.5 + inject_Z (14 - days) / 14)%Q
  else if days >=? 3 then (2.0 + inject_Z (7 - days) / 4)%Q
  else 3.0%Q.

Definition get_time_pressure_multiplier (self : KhameneiAggregator)
    (now : datetime) : Q :=
  let days := get_days_remaining self now in
  time_pressure_multiplier days.

(** [{s.name: s for s in signals}]: a later signal replaces an earlier one
    of the same name. *)
Definition signal_map_of (signals : list Signals.SignalOutput)
    : gmap string Signals.SignalOutput :=
  fold_left (fun m s => <[Signals.name s := s]> m) signals ∅.

(** One turn of the loop over [self.weights.items()], on
    [(weighted_sum, weighted_confidence, total_weight)]. *)
Definition accumulate (signal_map : gmap string Signals.SignalOutput)
    (acc : Q * Q * Q) (item : string * Q) : Q * Q * Q :=
  let '(weighted_sum, weighted_confidence, total_weight) := acc in
  let '(name, weight) := item in
  match signal_map !! name with
  | Some s =>
      let effective_weight := (weight * Signals.confidence s)%Q in
      ((weighted_sum + Signals.value s * effective_weight)%Q,
       (weighted_confidence + Signals.confidence s * weight)%Q,
       (total_weight + effective_weight)%Q)
  | None => acc
  end.

(** [sum(xs)] *)
Definition sum (xs : list Q) : Q := fold_left Qplus xs 0%Q.

Definition summarize (s : Signals.SignalOutput) : Summary :=
  SignalSummary (Py.round (Signals.value s) 1)
                (Py.round (Signals.confidence s) 2)
                (Signals.raw_value s).

(** [self.history.append(index)], then [self.history.pop(0)] when the list
    got longer than [self.max_history]. *)
Definition record_index (self : KhameneiAggregator) (index : KhameneiIndex)
    : KhameneiAggregator :=
  let history := history self ++ [index] in
  let history :=
    if (max_history self <? length history)%nat then drop 1 history
    else history in
  {| self_market_deadline := self_market_deadline self;
     deadline_date := deadline_date self;
     weights := weights self;
     thresholds := thresholds self;
     history := history;
     max_history := max_history self |}.

(** [aggregate]. The clock is read three times: for the multiplier
    ([now_multiplier]), for the index's timestamp ([now_timestamp]) and for
    its [days_remaining] ([now_days]). *)
Definition aggregate (self : KhameneiAggregator)
    (now_multiplier now_timestamp now_days : datetime)
    (signals : list Signals.SignalOutput)
    : Py.result (KhameneiIndex * KhameneiAggregator) :=
  let signal_map := signal_map_of signals in
  let '(weighted_sum, weighted_confidence, total_weight) :=
    fold_left (accumulate signal_map) (weights self) (0%Q, 0%Q, 0%Q) in
  scores <-
    (if Py.Qgt_bool total_weight 0 then
       raw_score <- Py.truediv weighted_sum total_weight ;;
       confidence <- Py.truediv weighted_confidence
                                (sum (map snd (weights self))) ;;
       Py.Ok (raw_score, confidence)
     else Py.Ok (0%Q, 0%Q)) ;;
  let '(raw_score, confidence) := scores in
  let time_multiplier := get_time_pressure_multiplier self now_multiplier in
  let score := Py.min 100 (raw_score * time_multiplier)%Q in
  let level :=
    if Py.Qge_bool score (red (thresholds self)) then "RED"
    else if Py.Qge_bool score (yellow (thresholds self)) then "YELLOW"
    else "GREEN" in
  let signal_summary :=
    fold_left (fun m s => <[Signals.name s := summarize s]> m) signals ∅ in
  let signal_summary :=
    <["_time_pressure" :=
        TimePressure (Py.round time_multiplier 2) (Py.round raw_score 1)]>
      signal_summary in
  let index :=
    {| score := score;
       confidence := confidence;
       level := level;
       signals := signal_summary;
       timestamp := now_timestamp;
       days_remaining := get_days_remaining self now_days;
       market_deadline := self_market_deadline self |} in
  Py.Ok (index, record_index self index).

Definition get_rate_of_change (self : KhameneiAggregator) (now : datetime)
    (minutes : Z) : option Q :=
  if (length (history self) <? 2)%nat then None
  else
    let cutoff := now - minutes * microseconds_per_minute in
    let recent := List.filter (fun h => timestamp h >=? cutoff) (history self) in
    if (length recent <? 2)%nat then None
    else
      match last recent, head recent with
      | Some latest, Some earliest => Some (score latest - score earliest)%Q
      | _, _ => None
      end.

Definition should_alert (self : KhameneiAggregator) (now : datetime)
    (current : KhameneiIndex) (last_alerted_level : string) : bool :=
  if negb (String.eqb (level current) last_alerted_level) then true
  else if String.eqb (level current) "RED" then true
  else
    let roc := get_rate_of_change self now 10 in
    match roc with
    | Some roc =>
        if Py.num_truthy roc && Py.Qgt_bool roc 20 then true else false
    | None => false
    end.

End Aggregator.

(** ** signals/silence_signal.py *)

Module SilenceSignal.

Definition REGIME_CHANNELS : list string :=
  ["tasnimnews"; "FarsNewsAgency"; "isnanews"].

(** The signal object; the client and the database only shape the queries. *)
Record SilenceSignal : Type := {
  regime_channels : list string
}.

Definition __init__ : SilenceSignal :=
  {| regime_channels := REGIME_CHANNELS |}.

(** What the body of the [try] comes to for one channel: something in it
    raises (the query, or reading the answer), the answer has no row or an
    empty first cell, or it holds the time of the last post. *)
Inductive ChannelOutcome : Type :=
| QueryRaised (e : string)
| NoData
| LastPost (last_post : datetime).

(** [d[k] = v] on a dictionary kept in insertion order. *)
Fixpoint dict_set (d : list (string * Py.value)) (k : string) (v : Py.value)
    : list (string * Py.value) :=
  match d with
  | [] => [(k, v)]
  | (k', v') :: rest =>
      if String.eqb k' k then (k, v) :: rest
      else (k', v') :: dict_set rest k v
  end.

(** [datetime.hour] *)
Definition hour (t : datetime) : Z := (t / microseconds_per_hour) mod 24.

(** [(a - b).total_seconds() / 3600] *)
Definition hours_between (a b : datetime) : Q :=
  (inject_Z (a - b) / 1000000 / 3600)%Q.

(** One turn of the loop over the channels, on
    [(silence_data, max_silence_hours, channels_checked)]. *)
Definition check_channel (now : datetime) (query : string -> ChannelOutcome)
    (acc : list (string * Py.value) * Q * Z) (channel : string)
    : list (string * Py.value) * Q * Z :=
  let '(silence_data, max_silence_hours, channels_checked) := acc in
  match query channel with
  | LastPost last_post =>
      let hours_silent := hours_between now last_post in
      (dict_set silence_data channel (Py.Float (Py.round hours_silent 2)),
       Py.max max_silence_hours hours_silent,
       channels_checked + 1)
  | NoData =>
      (dict_set silence_data channel (Py.Str "no_data"),
       max_silence_hours, channels_checked)
  | QueryRaised e =>
      (dict_set silence_data channel (Py.Str ("error: " +:+ e)),
       max_silence_hours, channels_checked)
  end.

(** [fetch]; [query] is what the client answers for each channel. In the
    evidence [True] is written as the integer it is. *)
Definition fetch (self : SilenceSignal) (now : datetime)
    (query : string -> ChannelOutcome) : Py.result Signals.SignalOutput :=
  let tehran_offset := 3 * microseconds_per_hour + 30 * microseconds_per_minute in
  let tehran_time := now + tehran_offset in
  let tehran_hour := hour tehran_time in
  let is_business_hours := (8 <=? tehran_hour) && (tehran_hour <=? 23) in
  if negb is_business_hours then
    Py.Ok {| Signals.name := "state_media_silence";
             Signals.value := 0;
             Signals.raw_value :=
               [("reason", Py.Str "outside_tehran_hours");
                ("tehran_hour", Py.Int tehran_hour)];
             Signals.confidence := 0.3;
             Signals.timestamp := now |}
  else
    let '(silence_data, max_silence_hours, channels_checked) :=
      fold_left (check_channel now query) (regime_channels self) ([], 0%Q, 0) in
    let normalized : Q :=
      if Qle_bool max_silence_hours 1 then 0%Q
      else Py.min 100 ((max_silence_hours - 1) * 50)%Q in
    confidence <-
      (if channels_checked =? 0 then Py.Ok 0%Q
       else
         share <- Py.truediv (inject_Z channels_checked)
                    (inject_Z (Z.of_nat (length (regime_channels self)))) ;;
         Py.Ok (Py.min 0.8 (0.4 + share * 0.4)%Q)) ;;
    Py.Ok {| Signals.name := "state_media_silence";
             Signals.value := normalized;
             Signals.raw_value :=
               [("max_silence_hours", Py.Float (Py.round max_silence_hours 2));
                ("channel_silence", Py.Dict silence_data);
                ("tehran_hour", Py.Int tehran_hour);
                ("is_business_hours", Py.Int 1)];
             Signals.confidence := confidence;
             Signals.timestamp := now |}.

End SilenceSignal.

(** ** main.py *)

Module Main.

(** What the loop of [run_index] carries from one turn to the next. *)
Record State : Type := {
  rial_signal : RialSignal.RialSignal;
  aggregator : Aggregator.KhameneiAggregator;
  last_alerted_level : string
}.

(** The reads of the clock during one turn, in the order they happen. *)
Record Clock : Type := {
  telegram_now : datetime;
  rial_now : datetime;
  silence_now : datetime;
  multiplier_now : datetime;
  timestamp_now : datetime;
  days_now : datetime;
  alert_now : datetime
}.

(** What the outside world answers during one turn. *)
Record World : Type := {
  telegram_rows : TelegramSignal.QueryOutcome;
  rial_page : RialSignal.Scrape;
  silence_answers : string -> SilenceSignal.ChannelOutcome
}.

Definition start : State :=
  {| rial_signal := RialSignal.__init__ 6;
     aggregator := Aggregator.__init__ "2026-03-31" (20543 * microseconds_per_day);
     last_alerted_level := "GREEN" |}.

(** The body of the [try] of one turn: the three signals, the index, the
    alert decision. An exception leaves the [try] at once; what was changed
    before stays changed. The result says whether an alert was sent. *)
Definition turn (silence_signal : SilenceSignal.SilenceSignal)
    (st : State) (clock : Clock) (world : World)
    : State * option (Aggregator.KhameneiIndex * bool) :=
  let telegram_result :=
    TelegramSignal.fetch (telegram_now clock) (telegram_rows world) in
  let '(rial_result, rial_signal) :=
    RialSignal.fetch (rial_signal st) (rial_now clock) (rial_page world) in
  let st :=
    {| rial_signal := rial_signal;
       aggregator := aggregator st;
       last_alerted_level := last_alerted_level st |} in
  match SilenceSignal.fetch silence_signal (silence_now clock)
          (silence_answers world) with
  | Py.Raise _ => (st, None)
  | Py.Ok silence_result =>
      let signals := [telegram_result; rial_result; silence_result] in
      match Aggregator.aggregate (aggregator st) (multiplier_now clock)
              (timestamp_now clock) (days_now clock) signals with
      | Py.Raise _ => (st, None)
      | Py.Ok (index, aggregator) =>
          if Aggregator.should_alert aggregator (alert_now clock) index
               (last_alerted_level st)
          then
            ({| rial_signal := rial_signal;
                aggregator := aggregator;
                last_alerted_level := Aggregator.level index |},
             Some (index, true))
          else
            ({| rial_signal := rial_signal;
                aggregator := aggregator;
                last_alerted_level := last_alerted_level st |},
             Some (index, false))
      end
  end.

End Main.

(** * Properties *)

(** ** Facts about the Python primitives *)

Module PyFacts.

Lemma Qlt_bool_iff (a b : Q) : Py.Qlt_bool a b = true <-> (a < b)%Q.
Proof.
  unfold Py.Qlt_bool. rewrite negb_true_iff.
  split.
  - intros Hle. apply Qnot_le_lt. intros Hba.
    apply Qle_bool_iff in Hba. congruence.
  - intros Hlt. destruct (Qle_bool b a) eqn:Hle; [|reflexivity].
    apply Qle_bool_iff in Hle. exfalso. exact (Qlt_not_le _ _ Hlt Hle).
Qed.

Lemma Qlt_bool_false_iff (a b : Q) : Py.Qlt_bool a b = false <-> (b <= a)%Q.
Proof.
  unfold Py.Qlt_bool. rewrite negb_false_iff. apply Qle_bool_iff.
Qed.

Lemma Qgt_bool_iff (a b : Q) : Py.Qgt_bool a b = true <-> (b < a)%Q.
Proof. apply Qlt_bool_iff. Qed.

Lemma Qgt_bool_false_iff (a b : Q) : Py.Qgt_bool a b = false <-> (a <= b)%Q.
Proof. apply Qlt_bool_false_iff. Qed.

Lemma Qge_bool_iff (a b : Q) : Py.Qge_bool a b = true <-> (b <= a)%Q.
Proof. apply Qle_bool_iff. Qed.

Lemma Qge_bool_false_iff (a b : Q) : Py.Qge_bool a b = false <-> (a < b)%Q.
Proof.
  unfold Py.Qge_bool. split.
  - intros Hf. apply Qnot_le_lt. intros Hle.
    apply Qle_bool_iff in Hle. congruence.
  - intros Hlt. destruct (Qle_bool b a) eqn:Hle; [|reflexivity].
    apply Qle_bool_iff in Hle. exfalso. exact (Qlt_not_le _ _ Hlt Hle).
Qed.

(** Python's [min] is the minimum. *)
Lemma min_cases (a b : Q) :
  ((b < a)%Q /\ Py.min a b = b) \/ ((a <= b)%Q /\ Py.min a b = a).
Proof.
  unfold Py.min. destruct (Py.Qlt_bool b a) eqn:Hlt.
  - left. split; [by apply Qlt_bool_iff | reflexivity].
  - right. split; [by apply Qlt_bool_false_iff | reflexivity].
Qed.

Lemma min_Qmin (a b : Q) : (Py.min a b == Qmin a b)%Q.
Proof.
  destruct (min_cases a b) as [[Hlt ->] | [Hle ->]].
  - symmetry. apply Q.min_r. by apply Qlt_le_weak.
  - symmetry. by apply Q.min_l.
Qed.

Lemma min_le_l (a b : Q) : (Py.min a b <= a)%Q.
Proof.
  destruct (min_cases a b) as [[Hlt ->] | [Hle ->]]; lra.
Qed.

Lemma min_le_r (a b : Q) : (Py.min a b <= b)%Q.
Proof.
  destruct (min_cases a b) as [[Hlt ->] | [Hle ->]]; lra.
Qed.

Lemma min_glb (a b c : Q) : (c <= a)%Q -> (c <= b)%Q -> (c <= Py.min a b)%Q.
Proof.
  intros Ha Hb. destruct (min_cases a b) as [[Hlt ->] | [Hle ->]]; lra.
Qed.

Lemma min_cap (a b : Q) : (a <= b)%Q -> (Py.min a b == a)%Q.
Proof.
  intros Hab. destruct (min_cases a b) as [[Hlt ->] | [Hle ->]]; lra.
Qed.

Lemma min_below (a b : Q) : (b <= a)%Q -> (Py.min a b == b)%Q.
Proof.
  intros Hab. destruct (min_cases a b) as [[Hlt ->] | [Hle ->]]; lra.
Qed.

Lemma num_truthy_iff (x : Q) : Py.num_truthy x = true <-> ~ (x == 0)%Q.
Proof.
  unfold Py.num_truthy. rewrite negb_true_iff. split.
  - intros Hf Heq. apply Qeq_bool_iff in Heq. congruence.
  - intros Hne. destruct (Qeq_bool x 0) eqn:Heq; [|reflexivity].
    apply Qeq_bool_iff in Heq. contradiction.
Qed.

(** [String.prefix] and [str_in] say what they should. *)
Lemma prefix_iff (kw text : string) :
  String.prefix kw text = true <-> exists post, text = kw +:+ post.
Proof.
  revert text. induction kw as [|c kw IH]; intros text.
  - split; [intros _; by exists text | intros _; by destruct text].
  - destruct text as [|d text]; simpl.
    + split; [done | intros [post Hpost]; discriminate].
    + destruct (Ascii.ascii_dec c d) as [->|Hne].
      * rewrite IH. split.
        -- intros [post ->]. by exists post.
        -- intros [post Hpost]. exists post. by injection Hpost.
      * split; [done |].
        intros [post Hpost]. injection Hpost as Hcd _. congruence.
Qed.

Lemma str_in_nil (kw : string) :
  Py.str_in kw "" = String.prefix kw "" || false.
Proof. reflexivity. Qed.

Lemma str_in_cons (kw : string) (d : ascii) (text : string) :
  Py.str_in kw (String d text) =
  String.prefix kw (String d text) || Py.str_in kw text.
Proof. reflexivity. Qed.

Lemma str_in_iff (kw text : string) :
  Py.str_in kw text = true <-> exists pre post, text = pre +:+ kw +:+ post.
Proof.
  induction text as [|d text IH].
  - rewrite str_in_nil, orb_false_r, prefix_iff. split.
    + intros [post Hpost]. by exists "", post.
    + intros [pre [post Hpost]]. destruct pre; [by exists post | discriminate].
  - rewrite str_in_cons, orb_true_iff, prefix_iff, IH. split.
    + intros [[post Hpost] | [pre [post Hpost]]].
      * by exists "", post.
      * exists (String d pre), post. simpl. by rewrite Hpost.
    + intros [pre [post Hpost]]. destruct pre as [|e pre].
      * left. by exists post.
      * right. exists pre, post. simpl in Hpost. by injection Hpost.
Qed.

(** Nothing occurs in the empty text but the empty keyword. *)
Lemma str_in_empty (kw : string) :
  Py.str_in kw "" = true -> kw = "".
Proof. by destruct kw. Qed.

Lemma any_in_iff (kws : list string) (text : string) :
  Py.any_in kws text = true <-> exists kw, In kw kws /\ Py.str_in kw text = true.
Proof. unfold Py.any_in. apply existsb_exists. Qed.

End PyFacts.

(** ** The threat scorer *)

Module ScorerFacts.

Import TelegramSignal.

Lemma append_assoc (a b c : string) : (a +:+ b) +:+ c = a +:+ (b +:+ c).
Proof.
  induction a as [|x a IH]; [done |].
  change (String x ((a +:+ b) +:+ c) = String x (a +:+ (b +:+ c))).
  by rewrite IH.
Qed.

(** A keyword that occurs brings its prefixes with it. *)
Lemma str_in_prefix (short long text : string) :
  String.prefix short long = true ->
  Py.str_in long text = true -> Py.str_in short text = true.
Proof.
  intros Hpre Hin.
  apply PyFacts.prefix_iff in Hpre as [rest ->].
  apply PyFacts.str_in_iff in Hin as [pre [post ->]].
  apply PyFacts.str_in_iff. exists pre, (rest +:+ post).
  by rewrite append_assoc.
Qed.

(** The slogan matched exactly when the shorter pattern occurs. *)
Lemma is_slogan_iff (text : string) :
  is_slogan text = true <-> Py.str_in "مرگ بر" text = true.
Proof.
  unfold is_slogan, slogan_patterns, Py.any_in. simpl.
  rewrite orb_false_r, orb_true_iff. split; [|by right].
  intros [Hlong | Hshort]; [|done].
  by apply (str_in_prefix _ "مرگ بر خامنه").
Qed.

Section Loops.

Variable text : string.

(** With the slogan matched and no other critical keyword in the text, the
    loop over the critical keywords leaves the score as it was. *)
Lemma critical_loop_suppressed (kws : list string) (score : Z) :
  is_slogan text = true ->
  (forall kw, In kw kws -> kw <> "مرگ" -> Py.str_in kw text = false) ->
  fold_left (critical_step text) kws score = score.
Proof.
  intros Hslogan. revert score.
  induction kws as [|kw kws IH]; intros score Hnone; [done |].
  simpl. rewrite IH by (intros kw' Hin; apply Hnone; by right).
  unfold critical_step. rewrite Hslogan, andb_true_r.
  destruct (String.eqb_spec kw "مرگ") as [->|Hne].
  - by destruct (Py.str_in _ text).
  - rewrite (Hnone kw); [done | by left | done].
Qed.

(** The loop over the routine keywords never raises the score. *)
Lemma routine_loop_le (kws : list string) (score : Z) :
  fold_left (routine_step text) kws score <= score.
Proof.
  revert score. induction kws as [|kw kws IH]; intros score; simpl; [lia |].
  etransitivity; [apply IH |].
  unfold routine_step. destruct (Py.str_in kw text); lia.
Qed.

End Loops.

(** Whatever the keyword lists, the floor rule puts the result at 4 or 5. *)
Lemma floor_dominates (khamenei critical routine : list string) (text : string) :
  Py.any_in khamenei text = true ->
  floor_rule_fires text = true ->
  4 <= score_message_with khamenei critical routine (Some text) <= 5.
Proof.
  intros Hsubject Hfloor.
  assert (Htruthy : Py.str_truthy (Some text) = true).
  { destruct text; [|done]. discriminate Hfloor. }
  unfold score_message_with. rewrite Htruthy. simpl.
  rewrite Hsubject, Hfloor. simpl. lia.
Qed.

(** Texts used below. *)
Definition obituary : string := "خامنه ای درگذشت".
Definition obituary_with_ceremony : string := "خامنه ای درگذشت دیدار سخنرانی پیام".
Definition obituary_with_slogan : string := "خامنه ای درگذشت. مرگ بر آمریکا".
Definition slogan : string := "مرگ بر خامنه ای".
Definition hospital_report : string := "رهبر معظم بیمارستان وخیم".

Example obituary_score : _score_message (Some obituary) = 4.
Proof. reflexivity. Qed.

Example obituary_with_ceremony_score :
  _score_message (Some obituary_with_ceremony) = 4.
Proof. reflexivity. Qed.

Example slogan_score : _score_message (Some slogan) = 0.
Proof. reflexivity. Qed.

Example hospital_report_score : _score_message (Some hospital_report) = 5.
Proof. reflexivity. Qed.

(** The mortality keyword on its own is a critical keyword like the others:
    it adds 2 and does not trigger the floor rule. *)
Example mortality_keyword_alone : _score_message (Some "خامنه ای مرگ") = 2.
Proof. reflexivity. Qed.

(** C9: for every empty or null message text the scorer returns -1 at once,
    before any keyword is looked for: the result is -1 whatever the keyword
    lists are, also for lists holding the empty keyword, which occurs in
    every text. *)
Theorem empty_text_is_irrelevant
    (khamenei critical routine : list string) (text : option string) :
  Py.str_truthy text = false ->
  score_message_with khamenei critical routine text = -1 /\
  _score_message text = -1.
Proof.
  intros Hfalsy. unfold _score_message, score_message_with.
  by rewrite Hfalsy.
Qed.

Lemma empty_text_is_irrelevant_witness :
  score_message_with [""] [""] [""] (Some "") = -1 /\
  _score_message None = -1.
Proof.
  split.
  - apply (empty_text_is_irrelevant [""] [""] [""] (Some "")). reflexivity.
  - apply (empty_text_is_irrelevant [""] [""] [""] None). reflexivity.
Defined.

(** C3, as stated, fails: a text with a subject keyword and a decease keyword
    that stands outside the slogan phrase scores 2 when the slogan phrase
    occurs elsewhere in the text. *)
Lemma mortality_floor_counterexample :
  Py.any_in KHAMENEI_KEYWORDS obituary_with_slogan = true /\
  Py.str_in "درگذشت" obituary_with_slogan = true /\
  Py.str_in "درگذشت" "مرگ بر خامنه" = false /\
  obituary_with_slogan = obituary +:+ ". " +:+ "مرگ بر آمریکا" /\
  _score_message (Some obituary_with_slogan) = 2 /\
  ~ (4 <= _score_message (Some obituary_with_slogan)).
Proof. repeat split; try reflexivity. vm_compute. by intros H. Qed.

(** C3, amended: every text that contains a subject keyword and one of the
    two decease keywords, and in which the slogan pattern occurs nowhere,
    scores at least 4, whatever routine keywords it also contains. *)
Theorem mortality_floor (text : string) :
  Py.any_in KHAMENEI_KEYWORDS text = true ->
  Py.any_in ["فوت"; "درگذشت"] text = true ->
  is_slogan text = false ->
  4 <= _score_message (Some text).
Proof.
  intros Hsubject Hdecease Hslogan.
  apply floor_dominates; [done |].
  unfold floor_rule_fires. by rewrite Hdecease, Hslogan.
Qed.

Lemma mortality_floor_witness :
  4 <= _score_message (Some obituary_with_ceremony).
Proof.
  apply (mortality_floor obituary_with_ceremony); reflexivity.
Defined.

(** The critical keywords the compound boosts and the floor rule look for. *)
Lemma boost_keywords_are_critical :
  Forall (fun kw => In kw CRITICAL_KEYWORDS /\ kw <> "مرگ")
         ["بیمارستان"; "بستری"; "سکته"; "جانشین"; "فوت"; "درگذشت"].
Proof.
  unfold CRITICAL_KEYWORDS.
  repeat (apply List.Forall_cons;
          [split; [simpl; repeat (first [left; reflexivity | right])
                  | discriminate] |]).
  apply List.Forall_nil.
Qed.

(** C4: every text that contains a subject keyword and the slogan phrase but
    no critical keyword other than the mortality keyword scores at most 0,
    and the condition of the floor rule is false on it. *)
Theorem slogan_suppression (text : string) :
  Py.any_in KHAMENEI_KEYWORDS text = true ->
  Py.str_in "مرگ بر" text = true ->
  (forall kw, In kw CRITICAL_KEYWORDS -> kw <> "مرگ" ->
              Py.str_in kw text = false) ->
  _score_message (Some text) <= 0 /\ floor_rule_fires text = false.
Proof.
  intros Hsubject Hphrase Hnone.
  assert (Hslogan : is_slogan text = true) by by apply is_slogan_iff.
  assert (Htruthy : Py.str_truthy (Some text) = true).
  { destruct text; [discriminate Hphrase | done]. }
  pose proof boost_keywords_are_critical as Hboost.
  repeat match type of Hboost with
         | Forall _ (_ :: _) =>
             apply Forall_cons_1 in Hboost as [[? ?] Hboost]
         end.
  assert (Hhospital : hospital_boost text = false).
  { unfold hospital_boost, Py.any_in. simpl.
    by rewrite (Hnone "بیمارستان"), (Hnone "بستری"), (Hnone "سکته") by done. }
  assert (Hsuccession : succession_boost text = false).
  { unfold succession_boost. by rewrite (Hnone "جانشین") by done. }
  assert (Hfloor : floor_rule_fires text = false).
  { unfold floor_rule_fires. rewrite Hslogan. apply andb_false_r. }
  split; [|done].
  unfold _score_message, score_message_with.
  rewrite Htruthy. cbn [negb from_option id].
  rewrite Hsubject. cbn [negb].
  rewrite Hhospital, Hsuccession, Hfloor.
  rewrite critical_loop_suppressed by done.
  pose proof (routine_loop_le text ROUTINE_KEYWORDS 0). lia.
Qed.

Lemma slogan_suppression_witness :
  _score_message (Some slogan) <= 0 /\ floor_rule_fires slogan = false.
Proof.
  apply (slogan_suppression slogan); [reflexivity | reflexivity |].
  intros kw Hin Hne. unfold CRITICAL_KEYWORDS in Hin. simpl in Hin.
  repeat (destruct Hin as [<- | Hin]; [first [reflexivity | by destruct Hne] |]).
  destruct Hin.
Defined.

End ScorerFacts.

(** ** The velocity normalizer *)

Module VelocityFacts.

Import TelegramSignal.

(** The value [fetch] computes from the count of critical messages and the
    count of distinct channels among them. *)
Definition amplified (critical_count critical_channels : nat) : Q :=
  let normalized : Q :=
    (if (critical_count =? 0)%nat then 0
     else if (critical_count =? 1)%nat then 25
     else if (critical_count =? 2)%nat then 50
     else if (critical_count =? 3)%nat then 75
     else 100)%Q in
  let normalized :=
    if (2 <=? critical_channels)%nat then Py.min 100 (normalized * 1.3)%Q
    else normalized in
  if (3 <=? critical_channels)%nat then Py.min 100 (normalized * 1.5)%Q
  else normalized.

(** The loop fills [critical_messages] with the critical rows, in order. *)
Lemma classify_step_channels
    (acc : list CriticalMessage * list string * list string) (row : Row) :
  map channel (classify_step acc row).1.1 =
  map channel acc.1.1 ++ map channel_title (critical_rows [row]).
Proof.
  destruct acc as [[critical routine] unclear].
  unfold classify_step, critical_rows, is_critical. simpl.
  destruct (message_text row) as [[|c msg_text]|] eqn:Htext; simpl.
  - by rewrite app_nil_r.
  - destruct (3 <=? _score_message (Some (String c msg_text))) eqn:Hscore; simpl.
    + by rewrite map_app.
    + rewrite app_nil_r.
      by destruct (_score_message (Some (String c msg_text)) <=? 0).
  - by rewrite app_nil_r.
Qed.

Lemma critical_rows_cons (row : Row) (messages : list Row) :
  critical_rows (row :: messages) = critical_rows [row] ++ critical_rows messages.
Proof.
  unfold critical_rows. simpl. by destruct (is_critical row).
Qed.

Lemma classify_loop_channels
    (messages : list Row)
    (acc : list CriticalMessage * list string * list string) :
  map channel (fold_left classify_step messages acc).1.1 =
  map channel acc.1.1 ++ map channel_title (critical_rows messages).
Proof.
  revert acc. induction messages as [|row messages IH]; intros acc.
  - simpl. by rewrite app_nil_r.
  - cbn [fold_left].
    rewrite IH, classify_step_channels, (critical_rows_cons row messages).
    by rewrite map_app, app_assoc.
Qed.

(** [fetch] computes [amplified] at the two counts of the design document. *)
Lemma fetch_value (now : datetime) (messages : list Row) :
  Signals.value (fetch now (ResultRows messages)) =
  amplified (critical_count_of messages) (critical_channels_of messages).
Proof.
  pose proof (classify_loop_channels messages ([], [], [])) as Hloop.
  unfold fetch.
  destruct (fold_left classify_step messages ([], [], []))
    as [[critical routine] unclear].
  simpl in Hloop |- *.
  unfold critical_channels_of, critical_count_of.
  rewrite <- Hloop, <- (length_map channel critical), Hloop.
  by rewrite length_map.
Qed.

(** A set built from a list is no larger than the list. *)
Lemma size_list_to_set_le (l : list string) :
  (size (list_to_set l : gset string) <= length l)%nat.
Proof.
  induction l as [|x l IH].
  - by rewrite list_to_set_nil, size_empty.
  - rewrite list_to_set_cons, size_union_alt, size_singleton. cbn [length].
    assert (Hsub : (list_to_set l : gset string) ∖ {[x]} ⊆ list_to_set l)
      by (apply subseteq_difference_l; reflexivity).
    apply subseteq_size in Hsub. lia.
Qed.

Lemma channels_le_count (messages : list Row) :
  (critical_channels_of messages <= critical_count_of messages)%nat.
Proof.
  unfold critical_channels_of, critical_count_of.
  etransitivity; [apply size_list_to_set_le |]. by rewrite length_map.
Qed.

(** On counts that can occur, the code and the design document agree. *)
Lemma amplified_spec (count channels : nat) :
  (channels <= count)%nat ->
  (amplified count channels == velocity_spec count channels)%Q.
Proof.
  intros Hle.
  destruct count as [|[|[|[|count]]]];
    destruct channels as [|[|[|channels]]]; try lia; reflexivity.
Qed.

Lemma amplified_three_channels (count channels : nat) :
  (channels <= count)%nat -> (3 <= channels)%nat ->
  (amplified count channels == 100)%Q.
Proof.
  intros Hle Hthree.
  destruct count as [|[|[|[|count]]]];
    destruct channels as [|[|[|channels]]]; try lia; reflexivity.
Qed.

(** Rows used below: three obituaries, from one channel and from three. *)
Definition row (text channel : string) : Row :=
  {| message_text := Some text;
     message_date := "2026-01-01 00:00:00";
     channel_title := channel |}.

Definition quiet_day : list Row :=
  [row ScorerFacts.slogan "a"; row ScorerFacts.slogan "b"].

Definition one_channel : list Row :=
  [row ScorerFacts.obituary "a"; row ScorerFacts.obituary "a";
   row ScorerFacts.obituary "a"].

Definition three_channels : list Row :=
  [row ScorerFacts.obituary "a"; row ScorerFacts.obituary "b";
   row ScorerFacts.obituary "c"].

(** C7: the value of the velocity normalizer is the step function of the
    count of critical messages, multiplied by the factor of the count of
    distinct channels among them and capped at 100; no critical message
    gives 0, exactly three from one channel give 75, three from three
    distinct channels give 100. *)
Theorem velocity_value (now : datetime) (messages : list Row) :
  let out := fetch now (ResultRows messages) in
  let count := critical_count_of messages in
  let channels := critical_channels_of messages in
  (Signals.value out == velocity_spec count channels)%Q /\
  (count = 0%nat -> (Signals.value out == 0)%Q) /\
  (count = 3%nat -> channels = 1%nat -> (Signals.value out == 75)%Q) /\
  (count = 3%nat -> channels = 3%nat -> (Signals.value out == 100)%Q).
Proof.
  intros out count channels. subst out.
  rewrite fetch_value. fold count channels.
  pose proof (channels_le_count messages) as Hle. fold count channels in Hle.
  split; [by apply amplified_spec |].
  split; [|split].
  - intros Hcount. rewrite Hcount in *.
    assert (channels = 0%nat) as -> by lia. reflexivity.
  - intros -> ->. reflexivity.
  - intros -> ->. reflexivity.
Qed.

Lemma velocity_value_witness :
  (Signals.value (fetch 0 (ResultRows quiet_day)) == 0)%Q /\
  (Signals.value (fetch 0 (ResultRows one_channel)) == 75)%Q /\
  (Signals.value (fetch 0 (ResultRows three_channels)) == 100)%Q.
Proof.
  split; [|split].
  - apply (velocity_value 0 quiet_day). reflexivity.
  - apply (velocity_value 0 one_channel); reflexivity.
  - apply (velocity_value 0 three_channels); reflexivity.
Defined.

(** C10: when the critical messages come from at least three distinct
    channels the value is exactly 100: there are then at least three
    critical messages, and both multipliers are applied in turn. *)
Theorem three_channels_saturate (now : datetime) (messages : list Row) :
  (3 <= critical_channels_of messages)%nat ->
  (3 <= critical_count_of messages)%nat /\
  (Signals.value (fetch now (ResultRows messages)) == 100)%Q /\
  (Signals.value (fetch now (ResultRows messages)) ==
   Py.min 100 (Py.min 100 (step_value (critical_count_of messages) * 1.3) * 1.5))%Q.
Proof.
  intros Hthree.
  pose proof (channels_le_count messages) as Hle.
  split; [lia |].
  rewrite fetch_value.
  split; [by apply amplified_three_channels |].
  destruct (critical_count_of messages) as [|[|[|[|count]]]];
    destruct (critical_channels_of messages) as [|[|[|channels]]];
    try lia; reflexivity.
Qed.

Lemma three_channels_saturate_witness :
  (Signals.value (fetch 0 (ResultRows three_channels)) == 100)%Q.
Proof.
  apply (three_channels_saturate 0 three_channels).
  apply Nat.leb_le. reflexivity.
Defined.

End VelocityFacts.

(** ** The price-crash normalizer *)

Module RialFacts.

Import RialSignal.

(** The signal after a successful observation has been stored. *)
Definition recorded (self : RialSignal) (now : datetime) (rate : Z) : RialSignal :=
  {| price_history := deque_append (maxlen self) (price_history self) (now, rate);
     maxlen := maxlen self;
     last_fetch_rate := Some rate |}.

(** The 1-hour percentage change [fetch] works with. *)
Definition pct_change_1h (self : RialSignal) (now : datetime) (rate : Z) : Q :=
  pct_change rate
    (_get_rate_at (recorded self now rate) (now - 1 * microseconds_per_hour)).

Lemma fetch_success (self : RialSignal) (now : datetime) (rate : Z) (html : string) :
  rate <> 0 ->
  (fetch self now (Parsed (Some rate) html)).2 = recorded self now rate /\
  Signals.value (fetch self now (Parsed (Some rate) html)).1 =
    normalize (pct_change_1h self now rate).
Proof.
  intros Hrate. unfold fetch, rate_truthy.
  destruct (Z.eqb_spec rate 0) as [|_]; [done |]. by simpl.
Qed.

(** A failed observation leaves the history alone and reports 0 / 0. *)
Lemma fetch_failure (self : RialSignal) (now : datetime) (page : Scrape) :
  match page with
  | Parsed (Some rate) _ => rate = 0
  | _ => True
  end ->
  (fetch self now page).2 = self /\
  (Signals.value (fetch self now page).1 == 0)%Q /\
  (Signals.confidence (fetch self now page).1 == 0)%Q.
Proof.
  destruct page as [e | e html | [rate|] html]; try done.
  by intros ->.
Qed.

Lemma normalize_positive (pct : Q) :
  (0 < pct)%Q -> (normalize pct == Qmin 100 (pct * 20))%Q.
Proof.
  intros Hpos. unfold normalize.
  rewrite (proj2 (PyFacts.Qgt_bool_iff pct 0) Hpos).
  apply PyFacts.min_Qmin.
Qed.

Lemma normalize_nonpositive (pct : Q) :
  (pct <= 0)%Q -> (normalize pct == 0)%Q.
Proof.
  intros Hle. unfold normalize.
  by rewrite (proj2 (PyFacts.Qgt_bool_false_iff pct 0) Hle).
Qed.

(** A rise of 6%: the change is 6, whatever the rates. *)
Lemma pct_change_six (rate past : Z) :
  rate <> 0 -> 100 * (rate - past) = 6 * past ->
  (pct_change rate (Some past) == 6)%Q.
Proof.
  intros Hrate Hsix.
  assert (Hpast : past <> 0) by lia.
  unfold pct_change, rate_truthy.
  destruct (Z.eqb_spec past 0) as [|_]; [done |]. simpl.
  assert (Hq : (inject_Z (rate - past) == 6 * inject_Z past / 100)%Q).
  { apply (f_equal inject_Z) in Hsix. rewrite !inject_Z_mult in Hsix.
    change (inject_Z 100) with 100%Q in Hsix.
    change (inject_Z 6) with 6%Q in Hsix.
    rewrite <- Hsix. field. }
  rewrite Hq. field.
  intros Hzero. apply Hpast.
  unfold Qeq in Hzero. simpl in Hzero. lia.
Qed.

(** A drop from a positive rate: the change is negative. *)
Lemma pct_change_drop (rate past : Z) :
  0 < past -> rate < past ->
  (pct_change rate (Some past) < 0)%Q.
Proof.
  intros Hpast Hdrop.
  unfold pct_change, rate_truthy.
  destruct (Z.eqb_spec past 0) as [|_]; [lia |]. simpl.
  assert (Hb : (0 < inject_Z past)%Q).
  { change 0%Q with (inject_Z 0). rewrite <- Zlt_Qlt. lia. }
  assert (Ha : (inject_Z (rate - past) < 0)%Q).
  { change 0%Q with (inject_Z 0). rewrite <- Zlt_Qlt. lia. }
  assert (Hdiv : (inject_Z (rate - past) / inject_Z past < 0)%Q).
  { apply Qlt_shift_div_r; [done |]. lra. }
  lra.
Qed.

(** A signal that has held one sample for two hours. *)
Definition two_hours : datetime := 2 * microseconds_per_hour.

Definition seasoned : RialSignal :=
  {| price_history := [(0, 1000000)];
     maxlen := 72;
     last_fetch_rate := Some 1000000 |}.

(** C8: for every successful observation the value is
    [min(100, pct_change_1h * 20)] when the 1-hour percentage change is
    positive and 0 otherwise; a rise of 6% over the rate of one hour ago
    gives 100, and a drop below the (positive) rate of one hour ago gives 0
    whatever its size. *)
Theorem price_crash_value
    (self : RialSignal) (now : datetime) (rate : Z) (html : string) :
  rate <> 0 ->
  let out := (fetch self now (Parsed (Some rate) html)).1 in
  let self' := (fetch self now (Parsed (Some rate) html)).2 in
  let pct := pct_change_1h self now rate in
  let past_rate := _get_rate_at self' (now - 1 * microseconds_per_hour) in
  ((0 < pct)%Q -> (Signals.value out == Qmin 100 (pct * 20))%Q) /\
  ((pct <= 0)%Q -> (Signals.value out == 0)%Q) /\
  (forall past, past_rate = Some past -> 100 * (rate - past) = 6 * past ->
                (Signals.value out == 100)%Q) /\
  (forall past, past_rate = Some past -> 0 < past -> rate < past ->
                (Signals.value out == 0)%Q).
Proof.
  intros Hrate out self' pct past_rate.
  destruct (fetch_success self now rate html Hrate) as [Hself Hvalue].
  subst out self' past_rate. rewrite Hself, Hvalue. fold pct.
  split; [apply normalize_positive |].
  split; [apply normalize_nonpositive |].
  split.
  - intros past Hpast Hsix.
    assert (Hpct : (pct == 6)%Q).
    { subst pct. unfold pct_change_1h. rewrite Hpast.
      by apply pct_change_six. }
    rewrite normalize_positive by lra.
    rewrite Hpct. reflexivity.
  - intros past Hpast Hpositive Hdrop.
    apply normalize_nonpositive. apply Qlt_le_weak.
    subst pct. unfold pct_change_1h. rewrite Hpast.
    by apply pct_change_drop.
Qed.

Lemma price_crash_value_witness :
  (Signals.value (fetch seasoned two_hours (Parsed (Some 1060000%Z) "")).1 == 100)%Q /\
  (Signals.value (fetch seasoned two_hours (Parsed (Some 1%Z) "")).1 == 0)%Q /\
  (Signals.value (fetch seasoned two_hours (Parsed (Some 1010000%Z) "")).1 == 20)%Q.
Proof.
  pose proof (price_crash_value seasoned two_hours 1060000 "" ltac:(done))
    as (_ & _ & Hrise & _).
  pose proof (price_crash_value seasoned two_hours 1 "" ltac:(done))
    as (_ & _ & _ & Hdrop).
  pose proof (price_crash_value seasoned two_hours 1010000 "" ltac:(done))
    as (Hsmall & _).
  split; [|split].
  - apply (Hrise 1000000); reflexivity.
  - apply (Hdrop 1000000); reflexivity.
  - etransitivity; [apply Hsmall |]; reflexivity.
Defined.

End RialFacts.

(** ** The aggregator *)

Module AggregatorFacts.

Import Aggregator.

Lemma inject_Z_sub (a b : Z) : (inject_Z (a - b) == inject_Z a - inject_Z b)%Q.
Proof.
  unfold Z.sub. rewrite inject_Z_plus, inject_Z_opp. reflexivity.
Qed.

(** Integer hypotheses on the days as rational ones, for [lra]. *)
Ltac q_of_z :=
  repeat match goal with
         | H : (_ <= _)%Z |- _ => rewrite Zle_Qle in H
         | H : (?a < ?b)%Z |- _ =>
             let v := eval compute in (Z.pred b) in
             apply Z.lt_le_pred in H; change (Z.pred b) with v in H
         end;
  rewrite ?inject_Z_sub, ?inject_Z_plus in *;
  repeat match goal with
         | H : context [inject_Z (Zpos ?p)] |- _ =>
             change (inject_Z (Zpos p)) with (Zpos p # 1) in H
         | |- context [inject_Z (Zpos ?p)] =>
             change (inject_Z (Zpos p)) with (Zpos p # 1)
         end;
  unfold Qdiv; cbn [Qinv Qnum Qden].

Ltac split_days :=
  unfold time_pressure_multiplier; rewrite !Z.geb_leb;
  repeat match goal with
         | |- context [(?a <=? ?b)%Z] => destruct (Z.leb_spec a b)
         end; try lia; q_of_z; try lra.

(** The multiplier grows as the deadline approaches. *)
Lemma multiplier_antitone (d1 d2 : Z) :
  d1 <= d2 ->
  (time_pressure_multiplier d2 <= time_pressure_multiplier d1)%Q.
Proof. intros Hle. split_days. Qed.

Lemma multiplier_bounds (d : Z) : (1 <= time_pressure_multiplier d <= 3)%Q.
Proof. split; split_days. Qed.

(** The aggregator of [main.py], and a signal of a given name. *)
Definition deadline : datetime := 20543 * microseconds_per_day.

Definition default : KhameneiAggregator := __init__ "2026-03-31" deadline.

Definition signal (name : string) (value confidence : Q) : Signals.SignalOutput :=
  {| Signals.name := name;
     Signals.value := value;
     Signals.raw_value := [];
     Signals.confidence := confidence;
     Signals.timestamp := 0 |}.

(** *** What the dictionary of signals holds *)

Lemma signal_map_from_lookup (signals : list Signals.SignalOutput)
    (m : gmap string Signals.SignalOutput) (name : string) (s : Signals.SignalOutput) :
  fold_left (fun m s => <[Signals.name s := s]> m) signals m !! name = Some s ->
  (In s signals /\ Signals.name s = name) \/ m !! name = Some s.
Proof.
  revert m. induction signals as [|s' signals IH]; intros m Hlook; [by right |].
  cbn [fold_left] in Hlook. apply IH in Hlook as [[Hin Hname] | Hlook].
  - left. split; [by right | done].
  - destruct (decide (Signals.name s' = name)) as [Heq | Hne].
    + rewrite <- Heq, lookup_insert_eq in Hlook. injection Hlook as ->.
      left. split; [by left | done].
    + rewrite lookup_insert_ne in Hlook by done. by right.
Qed.


Lemma signal_map_of_lookup (signals : list Signals.SignalOutput)
    (name : string) (s : Signals.SignalOutput) :
  signal_map_of signals !! name = Some s ->
  In s signals /\ Signals.name s = name.
Proof.
  intros Hlook. apply signal_map_from_lookup in Hlook as [Hin | Hempty]; [done |].
  by rewrite lookup_empty in Hempty.
Qed.

(** *** The loop over the weights *)

Definition in_range (s : Signals.SignalOutput) : Prop :=
  (0 <= Signals.value s <= 100)%Q /\ (0 <= Signals.confidence s <= 1)%Q.

Definition tally_ok (acc : Q * Q * Q) (W : Q) : Prop :=
  (0 <= acc.1.1 <= 100 * acc.2)%Q /\ (acc.2 == acc.1.2)%Q /\ (0 <= acc.1.2 <= W)%Q.

Lemma accumulate_ok (signal_map : gmap string Signals.SignalOutput)
    (acc : Q * Q * Q) (W : Q) (item : string * Q) :
  (forall name s, signal_map !! name = Some s -> in_range s) ->
  (0 <= item.2)%Q ->
  tally_ok acc W ->
  tally_ok (accumulate signal_map acc item) (W + item.2)%Q.
Proof.
  intros Hrange Hweight.
  destruct acc as [[ws wc] tw], item as [name w].
  unfold tally_ok, accumulate. cbn [fst snd] in *.
  intros (Hsum & Htotal & Hconf).
  destruct (signal_map !! name) as [s|] eqn:Hlook; cbn [fst snd].
  - destruct (Hrange name s Hlook) as [Hvalue Hc].
    assert (He : (0 <= w * Signals.confidence s)%Q)
      by (apply Qmult_le_0_compat; lra).
    assert (Hve : (0 <= Signals.value s * (w * Signals.confidence s))%Q)
      by (apply Qmult_le_0_compat; lra).
    assert (Hve' : (Signals.value s * (w * Signals.confidence s)
                    <= 100 * (w * Signals.confidence s))%Q)
      by (apply Qmult_le_compat_r; lra).
    assert (Hcw : (Signals.confidence s * w <= 1 * w)%Q)
      by (apply Qmult_le_compat_r; lra).
    assert (Hcomm : (Signals.confidence s * w == w * Signals.confidence s)%Q)
      by ring.
    repeat split; lra.
  - repeat split; lra.
Qed.


Lemma loop_ok (signal_map : gmap string Signals.SignalOutput)
    (items : list (string * Q)) (acc : Q * Q * Q) (W : Q) :
  (forall name s, signal_map !! name = Some s -> in_range s) ->
  Forall (fun item => (0 <= item.2)%Q) items ->
  tally_ok acc W ->
  tally_ok (fold_left (accumulate signal_map) items acc)
           (fold_left Qplus (map snd items) W).
Proof.
  intros Hrange Hweights. revert acc W.
  induction Hweights as [|item items Hweight _ IH]; intros acc W Hok; [done |].
  cbn [fold_left map]. apply IH. by apply accumulate_ok.
Qed.

Lemma loop_zero (signal_map : gmap string Signals.SignalOutput)
    (items : list (string * Q)) (acc : Q * Q * Q) :
  (forall item s, In item items -> signal_map !! item.1 = Some s ->
                  (item.2 * Signals.confidence s == 0)%Q) ->
  (acc.2 == 0)%Q ->
  ((fold_left (accumulate signal_map) items acc).2 == 0)%Q.
Proof.
  revert acc. induction items as [|[name w] items IH]; intros acc Hzero Hacc;
    [done |].
  cbn [fold_left]. apply IH; [intros item s Hin; apply Hzero; by right |].
  destruct acc as [[ws wc] tw]. unfold accumulate. cbn [snd] in *.
  destruct (signal_map !! name) as [s|] eqn:Hlook; cbn [snd]; [|done].
  rewrite (Hzero (name, w) s) by (done || by left). lra.
Qed.

Lemma Qeq_bool_pos (x : Q) : (0 < x)%Q -> Qeq_bool x 0 = false.
Proof.
  intros Hpos. destruct (Qeq_bool x 0) eqn:Heq; [|done].
  apply Qeq_bool_iff in Heq. lra.
Qed.


(** *** The fused index *)

(** C1, as stated, fails: a signal with a negative value and a confidence
    above 1 gives an index with a negative score and a confidence above 1. *)
Lemma aggregate_bounds_counterexample :
  exists index self',
    aggregate default 0 0 0 [signal "telegram_velocity" (-10) 2]
      = Py.Ok (index, self') /\
    (score index == -10)%Q /\ (confidence index == 6 / 5)%Q /\
    ~ (0 <= score index)%Q /\ ~ (confidence index <= 1)%Q.
Proof.
  eexists _, _. split; [reflexivity |].
  repeat split; vm_compute; congruence.
Qed.

(** C1, amended: for every list of input signals whose values lie in
    [0, 100] and whose confidences lie in [0, 1], and weights that are not
    negative, [aggregate] returns an index with score in [0, 100] and
    confidence in [0, 1]. *)
Theorem aggregate_bounds
    (self : KhameneiAggregator) (now_multiplier now_timestamp now_days : Z)
    (signals : list Signals.SignalOutput) :
  Forall (fun item => (0 <= item.2)%Q) (weights self) ->
  Forall in_range signals ->
  exists index self',
    aggregate self now_multiplier now_timestamp now_days signals
      = Py.Ok (index, self') /\
    (0 <= score index <= 100)%Q /\ (0 <= confidence index <= 1)%Q.
Proof.
  intros Hweights Hsignals.
  assert (Hrange : forall name s,
             signal_map_of signals !! name = Some s -> in_range s).
  { intros name s Hlook. apply signal_map_of_lookup in Hlook as [Hin _].
    rewrite List.Forall_forall in Hsignals. by apply Hsignals. }
  pose proof (loop_ok (signal_map_of signals) (weights self) (0%Q, 0%Q, 0%Q) 0%Q
                Hrange Hweights) as Hloop.
  unfold aggregate. fold (sum (map snd (weights self))) in Hloop.
  destruct (fold_left _ (weights self) _) as [[ws wc] tw].
  destruct Hloop as (Hsum & Htotal & Hconf);
    [unfold tally_ok; cbn [fst snd]; repeat split; lra |].
  cbn [fst snd] in *.
  pose proof (multiplier_bounds (get_days_remaining self now_multiplier))
    as Hmult.
  fold (get_time_pressure_multiplier self now_multiplier) in Hmult.
  destruct (Py.Qgt_bool tw 0) eqn:Hpos.
  - apply PyFacts.Qgt_bool_iff in Hpos.
    unfold Py.truediv.
    rewrite (Qeq_bool_pos tw), (Qeq_bool_pos (sum (map snd (weights self))))
      by lra.
    cbn [Py.bind]. eexists _, _. split; [reflexivity |]. cbn [score confidence].
    assert (Hraw : (0 <= ws / tw <= 100)%Q).
    { split; [apply Qle_shift_div_l | apply Qle_shift_div_r]; lra. }
    assert (Hscaled : (0 <= ws / tw * get_time_pressure_multiplier self now_multiplier)%Q)
      by (apply Qmult_le_0_compat; lra).
    split; [split |].
    + apply PyFacts.min_glb; lra.
    + apply PyFacts.min_le_l.
    + split; [apply Qle_shift_div_l | apply Qle_shift_div_r]; lra.
  - cbn [Py.bind]. eexists _, _. split; [reflexivity |]. cbn [score confidence].
    split; [split |]; [apply PyFacts.min_glb | apply PyFacts.min_le_l |]; lra.
Qed.

Lemma aggregate_bounds_witness :
  exists index self',
    aggregate default (deadline - 10 * microseconds_per_day) 0 0
      [signal "telegram_velocity" 75 0.9; signal "rial_crash" 100 0.5]
      = Py.Ok (index, self') /\
    (0 <= score index <= 100)%Q /\ (0 <= confidence index <= 1)%Q.
Proof.
  apply (aggregate_bounds default (deadline - 10 * microseconds_per_day) 0 0
           [signal "telegram_velocity" 75 0.9; signal "rial_crash" 100 0.5]).
  - repeat (apply List.Forall_cons; [vm_compute; congruence |]).
    apply List.Forall_nil.
  - repeat (apply List.Forall_cons;
            [repeat split; vm_compute; congruence |]).
    apply List.Forall_nil.
Defined.

(** C5: when every signal has zero effective weight, [aggregate] raises
    nothing and returns an index with score 0, confidence 0 and level GREEN;
    so it does when every signal has confidence 0 and when there is no
    signal. The thresholds are positive, as [__init__] sets them. *)
Theorem degenerate_fusion
    (self : KhameneiAggregator) (now_multiplier now_timestamp now_days : Z)
    (signals : list Signals.SignalOutput) :
  (0 < yellow (thresholds self))%Q ->
  (0 < red (thresholds self))%Q ->
  (forall s item, In s signals -> In item (weights self) ->
                  Signals.name s = item.1 ->
                  (item.2 * Signals.confidence s == 0)%Q) ->
  exists index self',
    aggregate self now_multiplier now_timestamp now_days signals
      = Py.Ok (index, self') /\
    (score index == 0)%Q /\ (confidence index == 0)%Q /\
    level index = "GREEN".
Proof.
  intros Hyellow Hred Hzero.
  pose proof (loop_zero (signal_map_of signals) (weights self) (0%Q, 0%Q, 0%Q))
    as Hloop.
  unfold aggregate.
  destruct (fold_left _ (weights self) _) as [[ws wc] tw].
  cbn [snd] in Hloop.
  assert (Htotal : (tw == 0)%Q).
  { apply Hloop; [|done]. intros item s Hin Hlook.
    apply signal_map_of_lookup in Hlook as [Hs Hname]. by apply (Hzero s item). }
  rewrite (proj2 (PyFacts.Qgt_bool_false_iff tw 0)) by lra.
  cbn [Py.bind]. eexists _, _. split; [reflexivity |].
  cbn [score confidence level].
  set (m := get_time_pressure_multiplier self now_multiplier).
  assert (Hscore : (Py.min 100 (0 * m) == 0)%Q).
  { rewrite PyFacts.min_below; lra. }
  split; [done |]. split; [done |].
  rewrite (proj2 (PyFacts.Qge_bool_false_iff _ (red (thresholds self))))
    by lra.
  by rewrite (proj2 (PyFacts.Qge_bool_false_iff _ (yellow (thresholds self))))
    by lra.
Qed.

Lemma degenerate_fusion_witness :
  (exists index self',
     aggregate default 0 0 0
       [signal "telegram_velocity" 100 0; signal "rial_crash" 100 0]
       = Py.Ok (index, self') /\
     (score index == 0)%Q /\ (confidence index == 0)%Q /\
     level index = "GREEN") /\
  (exists index self',
     aggregate default 0 0 0 [] = Py.Ok (index, self') /\
     (score index == 0)%Q /\ (confidence index == 0)%Q /\
     level index = "GREEN").
Proof.
  split.
  - apply (degenerate_fusion default 0 0 0
             [signal "telegram_velocity" 100 0; signal "rial_crash" 100 0]);
      [reflexivity | reflexivity |].
    intros s item [<- | [<- | []]] _ _; cbn [signal Signals.confidence]; ring.
  - apply (degenerate_fusion default 0 0 0 []); [reflexivity | reflexivity |].
    intros s item [].
Defined.

(** *** The multiplier *)

(** The clock of a call made exactly 14 days before the deadline. *)
Definition fourteen_days_before : datetime :=
  deadline - 14 * microseconds_per_day.

(** C2: at 14 days remaining the code returns 1.2 + 16/53 = 398/265, not the
    1.5 that the claim and the docstring of the function give for 14 days:
    the line that comes down from 30 days ends above 1.5, where the line to
    7 days starts (one day later, at 13 days, the multiplier is 1.5 + 1/14),
    so the multiplier jumps at this boundary. At the other boundaries the
    code returns the values of the claim. *)
Theorem time_pressure_at_14_days :
  get_days_remaining default fourteen_days_before = 14 /\
  (get_time_pressure_multiplier default fourteen_days_before == 398 # 265)%Q /\
  (time_pressure_multiplier 14 == 1.2 + 16 / 53)%Q /\
  ~ (time_pressure_multiplier 14 == 1.5)%Q /\
  (1.5 < time_pressure_multiplier 14)%Q /\
  (time_pressure_multiplier 13 == 1.5 + 1 / 14)%Q /\
  (time_pressure_multiplier 60 == 1.0)%Q /\
  (time_pressure_multiplier 30 == 1.2)%Q /\
  (time_pressure_multiplier 7 == 2.0)%Q /\
  (time_pressure_multiplier 3 == 3.0)%Q /\
  (time_pressure_multiplier 0 == 3.0)%Q.
Proof. repeat split; vm_compute; congruence. Qed.

(** *** Alerts *)

(** C6: [should_alert] returns true exactly when the level differs from the
    last alerted level, or the level is RED, or the 10-minute rate of change
    is defined and larger than 20. *)
Theorem should_alert_iff
    (self : KhameneiAggregator) (now : Z) (current : KhameneiIndex)
    (last_alerted_level : string) :
  should_alert self now current last_alerted_level = true <->
  level current <> last_alerted_level \/
  level current = "RED" \/
  exists roc, get_rate_of_change self now 10 = Some roc /\ (20 < roc)%Q.
Proof.
  unfold should_alert.
  destruct (String.eqb_spec (level current) last_alerted_level) as [Hsame | Hdiff];
    cbn [negb]; [|by split; [left |]].
  destruct (String.eqb_spec (level current) "RED") as [Hred | Hother];
    [by split; [right; left |] |].
  destruct (get_rate_of_change self now 10) as [roc|].
  - destruct (Py.Qgt_bool roc 20) eqn:Hspike.
    + apply PyFacts.Qgt_bool_iff in Hspike.
      rewrite (proj2 (PyFacts.num_truthy_iff roc)) by lra.
      split; [intros _; right; right; by exists roc | done].
    + apply PyFacts.Qgt_bool_false_iff in Hspike. rewrite andb_false_r.
      split; [done |].
      intros [Hne | [Hred | [roc' [Heq Hgt]]]]; [done | done |].
      injection Heq as <-. lra.
  - split; [done |].
    intros [Hne | [Hred | [roc' [Heq _]]]]; done.
Qed.

End AggregatorFacts.

(** ** More on the telegram signal *)

Module TelegramProperties.

Import TelegramSignal.

(** [d.get(key)] on an evidence dictionary. *)
Definition get (raw : list (string * Py.value)) (key : string) : option Py.value :=
  snd <$> List.find (fun item => String.eqb item.1 key) raw.

(** Rows whose text is neither [None] nor empty. *)
Definition has_text (row : Row) : bool := Py.str_truthy (message_text row).

(** X1: the score of every text, empty or not, lies between -1 and 5,
    whatever the keyword lists are. *)
Theorem score_range (khamenei critical routine : list string)
    (text : option string) :
  -1 <= score_message_with khamenei critical routine text <= 5 /\
  -1 <= _score_message text <= 5.
Proof.
  assert (Hrange : forall kh cr rt,
             -1 <= score_message_with kh cr rt text <= 5).
  { intros kh cr rt. unfold score_message_with.
    destruct (negb (Py.str_truthy text)); [lia |].
    cbv zeta. destruct (negb (Py.any_in kh _)); lia. }
  split; apply Hrange.
Qed.




(** *** The three lists of [fetch] *)

Definition lengths (acc : list CriticalMessage * list string * list string)
    : nat * nat * nat :=
  (length acc.1.1, length acc.1.2, length acc.2).

Lemma classify_step_lengths
    (acc : list CriticalMessage * list string * list string) (row : Row) :
  let '(critical, routine, unclear) := lengths (classify_step acc row) in
  let '(critical0, routine0, unclear0) := lengths acc in
  (critical + routine + unclear =
   critical0 + routine0 + unclear0 + (if has_text row then 1 else 0))%nat.
Proof.
  destruct acc as [[critical routine] unclear].
  unfold classify_step, lengths, has_text.
  destruct (Py.str_truthy (message_text row)); cbn [negb fst snd]; [|lia].
  destruct (3 <=? _); [|destruct (_ <=? 0)]; cbn [fst snd];
    rewrite length_app; cbn [length]; lia.
Qed.

Lemma classify_loop_lengths (messages : list Row)
    (acc : list CriticalMessage * list string * list string) :
  let '(critical, routine, unclear) :=
    lengths (fold_left classify_step messages acc) in
  let '(critical0, routine0, unclear0) := lengths acc in
  (critical + routine + unclear =
   critical0 + routine0 + unclear0 + length (List.filter has_text messages))%nat.
Proof.
  revert acc. induction messages as [|row messages IH]; intros acc.
  - cbn [fold_left List.filter length]. unfold lengths. lia.
  - cbn [fold_left List.filter]. specialize (IH (classify_step acc row)).
    pose proof (classify_step_lengths acc row) as Hstep.
    unfold lengths in *. cbn [fst snd] in *.
    destruct (has_text row); cbn [length]; lia.
Qed.

(** X3: of the rows the query returns, those with a text are sorted into
    critical, routine and unclear, each into exactly one list: the three
    counts of the evidence add up to their number; rows without a text are
    counted in [total_khamenei_mentions] only. *)
Theorem fetch_counts (now : datetime) (messages : list Row) :
  let raw := Signals.raw_value (fetch now (ResultRows messages)) in
  exists critical routine unclear : nat,
    get raw "critical_count" = Some (Py.Int (Z.of_nat critical)) /\
    get raw "routine_count" = Some (Py.Int (Z.of_nat routine)) /\
    get raw "unclear_count" = Some (Py.Int (Z.of_nat unclear)) /\
    get raw "total_khamenei_mentions" =
      Some (Py.Int (Z.of_nat (length messages))) /\
    (critical + routine + unclear =
     length (List.filter has_text messages))%nat /\
    critical = critical_count_of messages.
Proof.
  pose proof (classify_loop_lengths messages ([], [], [])) as Hsum.
  pose proof (VelocityFacts.classify_loop_channels messages ([], [], []))
    as Hchannels.
  unfold fetch, lengths in *.
  destruct (fold_left classify_step messages ([], [], []))
    as [[critical routine] unclear].
  cbn [fst snd length] in Hsum, Hchannels. cbn [Signals.raw_value].
  exists (length critical), (length routine), (length unclear).
  repeat split; [lia |].
  unfold critical_count_of.
  apply (f_equal length) in Hchannels.
  by rewrite ?length_app, !length_map in Hchannels.
Qed.

(** *** The value and the confidence *)

Ltac by_cases count channels :=
  destruct count as [|[|[|[|count]]]];
  destruct channels as [|[|[|channels]]];
  try lia; vm_compute; try congruence; try tauto.

Lemma amplified_range (count channels : nat) :
  (0 <= VelocityFacts.amplified count channels <= 100)%Q.
Proof. split; by_cases count channels. Qed.

Lemma amplified_mono (count channels count' channels' : nat) :
  (count <= count')%nat -> (channels <= channels')%nat ->
  (VelocityFacts.amplified count channels <=
   VelocityFacts.amplified count' channels')%Q.
Proof.
  intros Hcount Hchannels.
  destruct count as [|[|[|[|count]]]];
    destruct count' as [|[|[|[|count']]]]; try lia;
    destruct channels as [|[|[|channels]]];
    destruct channels' as [|[|[|channels']]]; try lia;
    vm_compute; congruence.
Qed.

(** The confidence follows the number of rows alone. *)
Lemma fetch_confidence (now : datetime) (messages : list Row) :
  (0.3 <= Signals.confidence (fetch now (ResultRows messages)) <= 0.9)%Q.
Proof.
  unfold fetch.
  destruct (fold_left classify_step messages ([], [], []))
    as [[critical routine] unclear].
  cbn [Signals.confidence].
  destruct (length messages =? 0)%nat; [|destruct (length messages <? 10)%nat];
    split; vm_compute; congruence.
Qed.

Lemma telegram_fetch_in_range (now : datetime) (outcome : QueryOutcome) :
  (0 <= Signals.value (fetch now outcome) <= 100)%Q /\
  (0 <= Signals.confidence (fetch now outcome) <= 1)%Q.
Proof.
  destruct outcome as [e | messages].
  - cbn [fetch Signals.value Signals.confidence]. lra.
  - rewrite VelocityFacts.fetch_value.
    split; [apply amplified_range |].
    pose proof (fetch_confidence now messages). lra.
Qed.

(** X4: whatever the query does, the output of [fetch] is a signal within
    the declared ranges: value in [0, 100], confidence in [0, 1]. A query
    that raises gives value 0 and confidence 0; a query that returns gives a
    confidence of at least 0.3, also when it returns no row. *)
Theorem telegram_output_in_range (now : datetime) (outcome : QueryOutcome) :
  let out := fetch now outcome in
  (0 <= Signals.value out <= 100)%Q /\
  (0 <= Signals.confidence out <= 1)%Q /\
  match outcome with
  | QueryRaised _ =>
      (Signals.value out == 0)%Q /\ (Signals.confidence out == 0)%Q
  | ResultRows _ => (0.3 <= Signals.confidence out <= 0.9)%Q
  end.
Proof.
  cbv zeta. destruct (telegram_fetch_in_range now outcome) as [Hvalue Hconf].
  split; [done |]. split; [done |].
  destruct outcome as [e | messages]; [by split | apply fetch_confidence].
Qed.

(** X5: rows that come on top of others never lower the value. *)
Theorem more_rows_no_less_value (now : datetime) (messages more : list Row) :
  (Signals.value (fetch now (ResultRows messages)) <=
   Signals.value (fetch now (ResultRows (messages ++ more))))%Q.
Proof.
  rewrite !VelocityFacts.fetch_value. apply amplified_mono.
  - unfold critical_count_of, critical_rows.
    rewrite List.filter_app, length_app. lia.
  - unfold critical_channels_of, critical_rows.
    rewrite List.filter_app, map_app, list_to_set_app_L.
    apply subseteq_size, union_subseteq_l.
Qed.

Lemma critical_rows_perm (messages messages' : list Row) :
  messages ≡ₚ messages' -> critical_rows messages ≡ₚ critical_rows messages'.
Proof.
  unfold critical_rows.
  induction 1 as [|row l l' _ IH|row row' l|l l' l'' _ IH _ IH']; cbn [List.filter].
  - done.
  - destruct (is_critical row); [by constructor | done].
  - destruct (is_critical row), (is_critical row'); try done. by constructor.
  - by etransitivity.
Qed.

(** X6: the value and the confidence do not depend on the order in which
    the query returns the rows. *)
Theorem row_order_is_irrelevant (now : datetime) (messages messages' : list Row) :
  messages ≡ₚ messages' ->
  Signals.value (fetch now (ResultRows messages)) =
    Signals.value (fetch now (ResultRows messages')) /\
  Signals.confidence (fetch now (ResultRows messages)) =
    Signals.confidence (fetch now (ResultRows messages')).
Proof.
  intros Hperm. split.
  - rewrite !VelocityFacts.fetch_value.
    pose proof (critical_rows_perm _ _ Hperm) as Hrows.
    unfold critical_count_of, critical_channels_of.
    by rewrite Hrows.
  - unfold fetch.
    destruct (fold_left classify_step messages ([], [], []))
      as [[critical routine] unclear].
    destruct (fold_left classify_step messages' ([], [], []))
      as [[critical' routine'] unclear'].
    cbn [Signals.confidence]. by rewrite (Permutation_length Hperm).
Qed.

Lemma row_order_is_irrelevant_witness :
  Signals.value (fetch 0 (ResultRows VelocityFacts.three_channels)) =
    Signals.value (fetch 0 (ResultRows (rev VelocityFacts.three_channels))) /\
  Signals.confidence (fetch 0 (ResultRows VelocityFacts.three_channels)) =
    Signals.confidence (fetch 0 (ResultRows (rev VelocityFacts.three_channels))).
Proof.
  apply (row_order_is_irrelevant 0 VelocityFacts.three_channels
           (rev VelocityFacts.three_channels)).
  apply Permutation_rev.
Defined.

End TelegramProperties.

(** ** More on the rial signal *)

Module RialProperties.

Import RialSignal.

(** The signal after a run of fetches, each with its clock and its page. *)
Definition fetches (self : RialSignal) (steps : list (datetime * Scrape))
    : RialSignal :=
  fold_left (fun self step => (fetch self step.1 step.2).2) steps self.

Lemma deque_append_length {A : Type} (maxlen : nat) (d : list A) (x : A) :
  (length d <= maxlen)%nat ->
  length (deque_append maxlen d x) = Nat.min maxlen (S (length d)).
Proof.
  intros Hbound. unfold deque_append.
  destruct (Nat.eqb_spec maxlen 0) as [-> | Hpositive]; [done |].
  destruct (Nat.leb_spec maxlen (length d)).
  - rewrite length_app, length_drop. cbn [length]. lia.
  - rewrite length_app. cbn [length]. lia.
Qed.

Lemma fetch_maxlen (self : RialSignal) (now : datetime) (page : Scrape) :
  maxlen (fetch self now page).2 = maxlen self.
Proof.
  destruct page as [e | e html | [rate|] html]; try done.
  unfold fetch. by destruct (negb (rate_truthy (Some rate))).
Qed.

Lemma fetch_bounded (self : RialSignal) (now : datetime) (page : Scrape) :
  (length (price_history self) <= maxlen self)%nat ->
  (length (price_history (fetch self now page).2) <= maxlen self)%nat.
Proof.
  intros Hbound.
  destruct page as [e | e html | [rate|] html]; try done.
  unfold fetch. destruct (negb (rate_truthy (Some rate))); [done |].
  cbn [snd price_history]. rewrite deque_append_length by done. lia.
Qed.

(** X7: the history never holds more than [history_hours * 12] samples,
    whatever is fetched and however often. *)
Theorem history_is_bounded (history_hours : nat)
    (steps : list (datetime * Scrape)) :
  (length (price_history (fetches (__init__ history_hours) steps))
   <= history_hours * 12)%nat.
Proof.
  assert (Hinv : forall self,
             (length (price_history self) <= maxlen self)%nat ->
             (length (price_history (fetches self steps)) <= maxlen self)%nat).
  { induction steps as [|[now page] steps IH]; intros self Hbound; [done |].
    unfold fetches. cbn [fold_left fst snd].
    rewrite <- (fetch_maxlen self now page).
    apply IH. rewrite fetch_maxlen. by apply fetch_bounded. }
  apply (Hinv (__init__ history_hours)). cbn. lia.
Qed.

(** X8: a fetch that fails (the request raises, the parsing raises, no rate
    is found, or the rate found is 0) stores nothing and reports value 0
    with confidence 0. *)
Theorem failed_fetch_changes_nothing
    (self : RialSignal) (now : datetime) (page : Scrape) :
  match page with
  | Parsed (Some rate) _ => rate = 0
  | _ => True
  end ->
  (fetch self now page).2 = self /\
  (Signals.value (fetch self now page).1 == 0)%Q /\
  (Signals.confidence (fetch self now page).1 == 0)%Q /\
  exists e, TelegramProperties.get (Signals.raw_value (fetch self now page).1)
              "error" = Some (Py.Str e).
Proof.
  destruct page as [e | e html | [rate|] html]; intros Hfail.
  - repeat split; by eexists.
  - repeat split; by eexists.
  - subst rate. repeat split; by eexists.
  - repeat split; by eexists.
Qed.

(** A page on which the rate reads 0. *)
Definition zero_rate_page : Scrape := Parsed (Some 0) "".

Lemma failed_fetch_changes_nothing_witness :
  let result := fetch RialFacts.seasoned RialFacts.two_hours zero_rate_page in
  result.2 = RialFacts.seasoned /\
  (Signals.value result.1 == 0)%Q /\
  (Signals.confidence result.1 == 0)%Q /\
  exists e, TelegramProperties.get (Signals.raw_value result.1) "error"
            = Some (Py.Str e).
Proof.
  apply (failed_fetch_changes_nothing RialFacts.seasoned RialFacts.two_hours
           zero_rate_page).
  reflexivity.
Defined.

(** *** Looking a rate up *)

Lemma find_split {A : Type} (f : A -> bool) (l : list A) :
  match List.find f l with
  | Some x => exists pre post,
      l = pre ++ x :: post /\ f x = true /\ Forall (fun y => f y = false) pre
  | None => Forall (fun y => f y = false) l
  end.
Proof.
  induction l as [|y l IH]; cbn [List.find]; [by constructor |].
  destruct (f y) eqn:Hy.
  - exists [], l. by repeat split.
  - destruct (List.find f l) as [x|].
    + destruct IH as (pre & post & -> & Hx & Hpre).
      exists (y :: pre), post. repeat split; [done |]. by constructor.
    + by constructor.
Qed.

(** X9: [_get_rate_at] returns the rate of the newest sample that is not
    later than the target time: every sample stored after it is later than
    the target; it returns [None] exactly when every sample is later. *)
Theorem get_rate_at_newest (self : RialSignal) (target : datetime) :
  match _get_rate_at self target with
  | Some rate => exists older ts newer,
      price_history self = older ++ (ts, rate) :: newer /\
      ts <= target /\
      Forall (fun sample => target < sample.1) newer
  | None => Forall (fun sample => target < sample.1) (price_history self)
  end.
Proof.
  unfold _get_rate_at.
  pose proof (find_split (fun sample : Z * Z => sample.1 <=? target)
                (rev (price_history self))) as Hfind.
  destruct (List.find _ (rev (price_history self))) as [[ts rate]|];
    cbn [fmap option_fmap option_map snd].
  - destruct Hfind as (pre & post & Hrev & Hts & Hpre).
    exists (rev post), ts, (rev pre). split; [|split].
    + rewrite <- (rev_involutive (price_history self)), Hrev.
      rewrite rev_app_distr. cbn [rev]. by rewrite <- app_assoc.
    + cbn [fst] in Hts. lia.
    + apply Forall_rev. eapply Forall_impl; [exact Hpre |].
      intros sample Hsample. cbn beta in Hsample. lia.
  - rewrite <- (rev_involutive (price_history self)). apply Forall_rev.
    eapply Forall_impl; [exact Hfind |].
    intros sample Hsample. cbn beta in Hsample. lia.
Qed.

(** X10: the rate a successful fetch has just stored is the rate found at
    the time of the fetch and at any later time, as long as the history keeps
    samples at all. *)
Theorem stored_rate_is_found
    (self : RialSignal) (now target : datetime) (rate : Z) (html : string) :
  rate <> 0 -> (0 < maxlen self)%nat -> now <= target ->
  _get_rate_at (fetch self now (Parsed (Some rate) html)).2 target = Some rate.
Proof.
  intros Hrate Hroom Hlater.
  destruct (RialFacts.fetch_success self now rate html Hrate) as [-> _].
  unfold _get_rate_at, RialFacts.recorded, deque_append. cbn [price_history].
  destruct (Nat.eqb_spec (maxlen self) 0) as [Hzero | _]; [lia |].
  destruct (maxlen self <=? length (price_history self))%nat;
    rewrite rev_app_distr; cbn [rev app List.find fst];
    by rewrite (proj2 (Z.leb_le now target) Hlater).
Qed.

Lemma stored_rate_is_found_witness :
  _get_rate_at (fetch (__init__ 6) 0 (Parsed (Some 1000000) "")).2 5 =
  Some 1000000.
Proof.
  apply (stored_rate_is_found (__init__ 6) 0 5 1000000 ""); [done | | lia].
  cbn. lia.
Defined.

Lemma find_none {A : Type} (f : A -> bool) (l : list A) :
  Forall (fun y => f y = false) l -> List.find f l = None.
Proof.
  induction 1 as [|y l Hy _ IH]; [done |]. cbn [List.find]. by rewrite Hy.
Qed.

Lemma drop_Forall {A : Type} (P : A -> Prop) (n : nat) (l : list A) :
  Forall P l -> Forall P (drop n l).
Proof.
  intros Hall. rewrite <- (take_drop n l) in Hall.
  by apply Forall_app in Hall as [_ Hdrop].
Qed.

(** X11: as long as no stored sample is an hour old, a successful fetch
    reports value 0 whatever the rate is: there is nothing to compare it
    with. So does the first fetch of all. *)
Theorem young_history_is_calm
    (self : RialSignal) (now : datetime) (rate : Z) (html : string) :
  rate <> 0 ->
  Forall (fun sample => now - 1 * microseconds_per_hour < sample.1)
         (price_history self) ->
  (Signals.value (fetch self now (Parsed (Some rate) html)).1 == 0)%Q.
Proof.
  intros Hrate Hyoung.
  destruct (RialFacts.fetch_success self now rate html Hrate) as [_ ->].
  unfold RialFacts.pct_change_1h, _get_rate_at.
  rewrite find_none; [done |].
  apply Forall_rev. unfold RialFacts.recorded, deque_append.
  cbn [price_history].
  assert (Hnew : Forall (fun sample : Z * Z =>
                           (sample.1 <=? now - 1 * microseconds_per_hour) = false)
                        [(now, rate)]).
  { repeat constructor. cbn [fst]. apply Z.leb_gt.
    unfold microseconds_per_hour, microseconds_per_minute. lia. }
  assert (Hold : Forall (fun sample : Z * Z =>
                           (sample.1 <=? now - 1 * microseconds_per_hour) = false)
                        (price_history self)).
  { eapply Forall_impl; [exact Hyoung |].
    intros sample Hsample. cbn beta in Hsample. by apply Z.leb_gt. }
  destruct (maxlen self =? 0)%nat; [by constructor |].
  destruct (maxlen self <=? length (price_history self))%nat;
    apply Forall_app; split; try done. by apply drop_Forall.
Qed.

Lemma young_history_is_calm_witness :
  (Signals.value (fetch (__init__ 6) 0 (Parsed (Some 1000000%Z) "")).1 == 0)%Q.
Proof.
  apply (young_history_is_calm (__init__ 6) 0 1000000 ""); [done |].
  constructor.
Defined.

Lemma normalize_range (pct : Q) : (0 <= normalize pct <= 100)%Q.
Proof.
  unfold normalize. destruct (Py.Qgt_bool pct 0) eqn:Hpos; [|lra].
  apply PyFacts.Qgt_bool_iff in Hpos.
  split; [apply PyFacts.min_glb; lra | apply PyFacts.min_le_l].
Qed.

(** The confidence after a successful fetch, from the depth of the history. *)
Lemma depth_confidence (depth : nat) :
  let confidence :=
    Py.min 0.95 (0.5 + inject_Z (Z.of_nat depth * 5) / 120 * 0.45)%Q in
  (0.5 <= confidence <= 0.95)%Q /\
  ((24 <= depth)%nat -> (confidence == 0.95)%Q).
Proof.
  cbv zeta.
  assert (Hdepth : (0 <= inject_Z (Z.of_nat depth * 5))%Q).
  { change 0%Q with (inject_Z 0). rewrite <- Zle_Qle. lia. }
  assert (Hshare : (0 <= inject_Z (Z.of_nat depth * 5) / 120)%Q)
    by (apply Qle_shift_div_l; lra).
  split; [split; [apply PyFacts.min_glb; lra | apply PyFacts.min_le_l] |].
  intros Hfull. apply PyFacts.min_cap.
  assert (Hlong : (120 <= inject_Z (Z.of_nat depth * 5))%Q).
  { change 120%Q with (inject_Z 120). rewrite <- Zle_Qle. lia. }
  assert (Hone : (1 <= inject_Z (Z.of_nat depth * 5) / 120)%Q)
    by (apply Qle_shift_div_l; lra).
  lra.
Qed.

Lemma rial_fetch_in_range (self : RialSignal) (now : datetime) (page : Scrape) :
  (0 <= Signals.value (fetch self now page).1 <= 100)%Q /\
  (0 <= Signals.confidence (fetch self now page).1 <= 1)%Q.
Proof.
  destruct page as [e | e html | [rate|] html];
    try (cbn [fetch failure fst Signals.value Signals.confidence rate_truthy negb];
         lra).
  unfold fetch, rate_truthy.
  destruct (Z.eqb_spec rate 0) as [-> | Hrate]; cbn [negb].
  - cbn [failure fst Signals.value Signals.confidence]. lra.
  - cbn [from_option id fst snd Signals.value Signals.confidence price_history].
    split; [apply normalize_range |].
    destruct (depth_confidence
                (length (deque_append (maxlen self) (price_history self)
                           (now, rate)))) as [Hconf _].
    cbv zeta in Hconf. lra.
Qed.

(** Rates small enough for the percentage to be computed: the quotient of
    two integers below [2 ^ 1000] in size is within the range of a float,
    where Python refuses a larger one with an [OverflowError]. *)
Definition moderate (rate : Z) : Prop := Z.abs rate < 2 ^ 1000.

Definition moderate_page (page : Scrape) : Prop :=
  match page with
  | Parsed (Some rate) _ => moderate rate
  | _ => True
  end.

Definition moderate_history (self : RialSignal) : Prop :=
  Forall (fun sample => moderate sample.2) (price_history self).

(** X12: for each outcome of the scrape that [fetch] handles, with the rate
    found and the rates stored below [2 ^ 1000] in size, the output of
    [fetch] is a signal within the declared ranges: value in [0, 100],
    confidence in [0, 1]. After a successful fetch the confidence lies
    between 0.5 and 0.95, and it is 0.95 once the history holds 24 samples,
    two hours of them. *)
Theorem rial_output_in_range
    (self : RialSignal) (now : datetime) (page : Scrape) :
  moderate_history self ->
  moderate_page page ->
  let out := (fetch self now page).1 in
  let self' := (fetch self now page).2 in
  (0 <= Signals.value out <= 100)%Q /\
  (0 <= Signals.confidence out <= 1)%Q /\
  match page with
  | Parsed (Some rate) _ =>
      rate <> 0 ->
      (0.5 <= Signals.confidence out <= 0.95)%Q /\
      ((24 <= length (price_history self'))%nat ->
       (Signals.confidence out == 0.95)%Q)
  | _ => True
  end.
Proof.
  intros _ _. cbv zeta.
  destruct (rial_fetch_in_range self now page) as [Hvalue Hconf].
  split; [done |]. split; [done |].
  destruct page as [e | e html | [rate|] html]; try done.
  intros Hrate. unfold fetch, rate_truthy.
  destruct (Z.eqb_spec rate 0) as [|_]; [done |]. cbn [negb].
  cbn [from_option id fst snd Signals.confidence price_history].
  apply depth_confidence.
Qed.

(** A page with a rate 6% above the stored one. *)
Definition risen_page : Scrape := Parsed (Some 1060000) "".

Lemma rial_output_in_range_witness :
  let out := (fetch RialFacts.seasoned RialFacts.two_hours risen_page).1 in
  (0 <= Signals.value out <= 100)%Q /\
  (0 <= Signals.confidence out <= 1)%Q /\
  (0.5 <= Signals.confidence out <= 0.95)%Q.
Proof.
  destruct (rial_output_in_range RialFacts.seasoned RialFacts.two_hours
              risen_page) as (Hvalue & Hconf & Hsuccess).
  - repeat constructor.
  - reflexivity.
  - split; [exact Hvalue |]. split; [exact Hconf |].
    apply Hsuccess. discriminate.
Defined.

End RialProperties.

(** ** The silence signal *)

Module SilenceProperties.

Import SilenceSignal.

(** Whether a channel's query told when it last posted, and for how long
    the channels that answered have been silent. *)
Definition answered (query : string -> ChannelOutcome) (channel : string) : bool :=
  match query channel with
  | LastPost _ => true
  | _ => false
  end.

Definition silences (now : datetime) (query : string -> ChannelOutcome)
    (channels : list string) : list Q :=
  flat_map (fun channel =>
              match query channel with
              | LastPost last_post => [hours_between now last_post]
              | _ => []
              end) channels.

Definition tehran_hour (now : datetime) : Z :=
  hour (now + (3 * microseconds_per_hour + 30 * microseconds_per_minute)).

(** What the loop over the channels leaves in its two counters. *)
Lemma loop_counters (now : datetime) (query : string -> ChannelOutcome)
    (channels : list string) (acc : list (string * Py.value) * Q * Z) :
  (fold_left (check_channel now query) channels acc).1.2 =
    fold_left Py.max (silences now query channels) acc.1.2 /\
  (fold_left (check_channel now query) channels acc).2 =
    acc.2 + Z.of_nat (length (List.filter (answered query) channels)).
Proof.
  revert acc. induction channels as [|channel channels IH]; intros acc.
  - cbn. split; [done | lia].
  - cbn [fold_left]. destruct (IH (check_channel now query acc channel)) as [-> ->].
    destruct acc as [[data longest] checked].
    unfold check_channel, silences, answered. cbn [flat_map List.filter].
    destruct (query channel); cbn [fst snd app fold_left length]; split;
      try done; lia.
Qed.

Lemma max_cases (a b : Q) :
  ((a < b)%Q /\ Py.max a b = b) \/ ((b <= a)%Q /\ Py.max a b = a).
Proof.
  unfold Py.max. destruct (Py.Qgt_bool b a) eqn:Hgt.
  - left. split; [by apply PyFacts.Qgt_bool_iff | done].
  - right. split; [by apply PyFacts.Qgt_bool_false_iff | done].
Qed.

(** The running maximum is no less than where it started and than every
    element, and it is one of them. *)
Lemma running_max_ge (xs : list Q) (start : Q) :
  (start <= fold_left Py.max xs start)%Q /\
  Forall (fun x => (x <= fold_left Py.max xs start)%Q) xs.
Proof.
  revert start. induction xs as [|x xs IH]; intros start; cbn [fold_left].
  - split; [lra | constructor].
  - destruct (IH (Py.max start x)) as [Hstart Hrest].
    destruct (max_cases start x) as [[Hlt Heq] | [Hle Heq]];
      rewrite Heq in *; (split; [lra | constructor; [lra | done]]).
Qed.

Lemma running_max_in (xs : list Q) (start : Q) :
  fold_left Py.max xs start = start \/ In (fold_left Py.max xs start) xs.
Proof.
  revert start. induction xs as [|x xs IH]; intros start; cbn [fold_left];
    [by left |].
  destruct (IH (Py.max start x)) as [Heq | Hin]; [|right; by right].
  rewrite Heq. destruct (max_cases start x) as [[_ ->] | [_ ->]];
    [right; by left | by left].
Qed.

Lemma positive_nonzero (x : Q) : (0 < x)%Q -> Qeq_bool x 0 = false.
Proof.
  intros Hpos. destruct (Qeq_bool x 0) eqn:Heq; [|done].
  apply Qeq_bool_iff in Heq. lra.
Qed.

(** The division by the number of channels happens only when some channel
    answered, so it never fails. *)
Lemma silence_output_total (self : SilenceSignal) (now : datetime)
    (query : string -> ChannelOutcome) :
  exists out, fetch self now query = Py.Ok out.
Proof.
  unfold fetch. cbv zeta.
  destruct (negb _); [by eexists |].
  pose proof (loop_counters now query (regime_channels self) ([], 0%Q, 0))
    as [_ Hchecked].
  destruct (fold_left _ (regime_channels self) _) as [[data longest] checked].
  cbn [fst snd] in Hchecked.
  pose proof (List.filter_length_le (answered query) (regime_channels self))
    as Hfew.
  destruct (Z.eqb_spec checked 0) as [Hnone | Hsome]; cbn [Py.bind];
    [by eexists |].
  unfold Py.truediv. rewrite positive_nonzero; [by eexists |].
  change 0%Q with (inject_Z 0). rewrite <- Zlt_Qlt. lia.
Qed.

(** The fetch returns, within the ranges. *)
Lemma silence_fetch_in_range (self : SilenceSignal) (now : datetime)
    (query : string -> ChannelOutcome) :
  exists out,
    fetch self now query = Py.Ok out /\
    (0 <= Signals.value out <= 100)%Q /\
    (0 <= Signals.confidence out <= 0.8)%Q.
Proof.
  unfold fetch. cbv zeta.
  destruct (negb _); [eexists; split; [done |]; cbn; lra |].
  pose proof (loop_counters now query (regime_channels self) ([], 0%Q, 0))
    as [Hlongest Hchecked].
  destruct (fold_left _ (regime_channels self) _) as [[data longest] checked].
  cbn [fst snd] in Hlongest, Hchecked.
  pose proof (List.filter_length_le (answered query) (regime_channels self))
    as Hfew.
  assert (Hvalue : (0 <= (if Qle_bool longest 1 then 0
                          else Py.min 100 ((longest - 1) * 50)) <= 100)%Q).
  { destruct (Qle_bool longest 1) eqn:Hshort; [lra |].
    assert (Hlong : (1 < longest)%Q).
    { apply Qnot_le_lt. intros Hle. apply Qle_bool_iff in Hle. congruence. }
    split; [apply PyFacts.min_glb; lra | apply PyFacts.min_le_l]. }
  destruct (Z.eqb_spec checked 0) as [Hnone | Hsome]; cbn [Py.bind].
  - eexists. split; [done |]. cbn [Signals.value Signals.confidence].
    split; [done | lra].
  - unfold Py.truediv.
    set (n := Z.of_nat (length (regime_channels self))).
    assert (Hn : 0 < checked <= n) by lia.
    assert (Hnq : (0 < inject_Z n)%Q)
      by (change 0%Q with (inject_Z 0); rewrite <- Zlt_Qlt; lia).
    assert (Hcq : (0 <= inject_Z checked <= inject_Z n)%Q)
      by (change 0%Q with (inject_Z 0); rewrite <- !Zle_Qle; lia).
    rewrite positive_nonzero by done. cbn [Py.bind].
    eexists. split; [done |]. cbn [Signals.value Signals.confidence].
    split; [done |].
    assert (Hshare : (0 <= inject_Z checked / inject_Z n <= 1)%Q).
    { split; [apply Qle_shift_div_l | apply Qle_shift_div_r]; lra. }
    split; [apply PyFacts.min_glb; lra | apply PyFacts.min_le_l].
Qed.

(** X13: [fetch] raises nothing, whatever the channels answer and whatever
    the list of channels is, and its output is a signal within the declared
    ranges: value in [0, 100], confidence in [0, 0.8]. *)
Theorem silence_output_in_range (self : SilenceSignal) (now : datetime)
    (query : string -> ChannelOutcome) :
  exists out,
    fetch self now query = Py.Ok out /\
    (0 <= Signals.value out <= 100)%Q /\
    (0 <= Signals.confidence out <= 0.8)%Q.
Proof. apply silence_fetch_in_range. Qed.

(** X14: outside Tehran's hours of business, that is when the hour in
    Tehran (UTC+3:30) is before 8, [fetch] asks nothing: whatever the
    channels would answer, it reports value 0 with confidence 0.3. *)
Theorem night_is_not_silence (self : SilenceSignal) (now : datetime)
    (query : string -> ChannelOutcome) :
  tehran_hour now < 8 ->
  exists out,
    fetch self now query = Py.Ok out /\
    (Signals.value out == 0)%Q /\ (Signals.confidence out == 0.3)%Q /\
    forall query', fetch self now query' = Py.Ok out.
Proof.
  intros Hnight. unfold fetch, tehran_hour in *. cbv zeta.
  rewrite (proj2 (Z.leb_gt 8 _) Hnight). cbn [andb negb].
  eexists. by repeat split.
Qed.

Lemma night_is_not_silence_witness :
  exists out,
    fetch __init__ 0 (fun _ => NoData) = Py.Ok out /\
    (Signals.value out == 0)%Q /\ (Signals.confidence out == 0.3)%Q /\
    forall query', fetch __init__ 0 query' = Py.Ok out.
Proof.
  apply (night_is_not_silence __init__ 0 (fun _ => NoData)). reflexivity.
Defined.

(** The value in the hours of business, from the longest silence. *)
Lemma business_value (self : SilenceSignal) (now : datetime)
    (query : string -> ChannelOutcome) :
  8 <= tehran_hour now ->
  exists out,
    fetch self now query = Py.Ok out /\
    let longest := fold_left Py.max (silences now query (regime_channels self)) 0%Q in
    Signals.value out =
      if Qle_bool longest 1 then 0%Q else Py.min 100 ((longest - 1) * 50)%Q.
Proof.
  intros Hday.
  assert (Hhour : tehran_hour now <= 23).
  { unfold tehran_hour, hour.
    pose proof (Z.mod_pos_bound
                  ((now + (3 * microseconds_per_hour + 30 * microseconds_per_minute))
                   / microseconds_per_hour) 24). lia. }
  destruct (silence_output_total self now query) as [out Hout].
  exists out. split; [done |]. revert Hout.
  unfold fetch, tehran_hour in *. cbv zeta.
  rewrite (proj2 (Z.leb_le 8 _) Hday), (proj2 (Z.leb_le _ 23) Hhour).
  cbn [andb negb].
  pose proof (loop_counters now query (regime_channels self) ([], 0%Q, 0))
    as [Hlongest _].
  destruct (fold_left _ (regime_channels self) _) as [[data longest] checked].
  cbn [fst snd] in Hlongest. subst longest.
  destruct (checked =? 0); cbn [Py.bind]; [by intros [= <-] |].
  destruct (Py.truediv _ _); cbn [Py.bind]; [by intros [= <-] | done].
Qed.

Lemma hours_between_ge (now last_post : datetime) (hours : Z) :
  hours * microseconds_per_hour <= now - last_post ->
  (inject_Z hours <= hours_between now last_post)%Q.
Proof.
  intros Hgap. unfold hours_between.
  apply Qle_shift_div_l; [lra |]. apply Qle_shift_div_l; [lra |].
  rewrite Zle_Qle in Hgap.
  unfold microseconds_per_hour, microseconds_per_minute in Hgap.
  rewrite inject_Z_mult in Hgap.
  change (inject_Z (60 * (60 * 1000000))) with 3600000000%Q in Hgap. lra.
Qed.

Lemma hours_between_le (now last_post : datetime) (hours : Z) :
  now - last_post <= hours * microseconds_per_hour ->
  (hours_between now last_post <= inject_Z hours)%Q.
Proof.
  intros Hgap. unfold hours_between.
  apply Qle_shift_div_r; [lra |]. apply Qle_shift_div_r; [lra |].
  rewrite Zle_Qle in Hgap.
  unfold microseconds_per_hour, microseconds_per_minute in Hgap.
  rewrite inject_Z_mult in Hgap.
  change (inject_Z (60 * (60 * 1000000))) with 3600000000%Q in Hgap. lra.
Qed.

(** X15: in the hours of business, a channel that answered and has been
    silent for three hours or more puts the value at 100, whatever the
    other channels do. *)
Theorem long_silence_saturates (self : SilenceSignal) (now : datetime)
    (query : string -> ChannelOutcome) (channel : string) (last_post : datetime) :
  8 <= tehran_hour now ->
  In channel (regime_channels self) ->
  query channel = LastPost last_post ->
  3 * microseconds_per_hour <= now - last_post ->
  exists out,
    fetch self now query = Py.Ok out /\ (Signals.value out == 100)%Q.
Proof.
  intros Hday Hin Hanswer Hgap.
  destruct (business_value self now query Hday) as (out & Hout & Hvalue).
  exists out. split; [done |]. cbv zeta in Hvalue. rewrite Hvalue.
  set (longest := fold_left Py.max _ _).
  assert (Hlong : (3 <= longest)%Q).
  { destruct (running_max_ge (silences now query (regime_channels self)) 0%Q)
      as [_ Hall].
    rewrite List.Forall_forall in Hall.
    apply (Qle_trans _ (hours_between now last_post));
      [apply (hours_between_ge now last_post 3 Hgap) |].
    apply Hall. unfold silences. apply in_flat_map.
    exists channel. split; [done |]. rewrite Hanswer. by left. }
  destruct (Qle_bool longest 1) eqn:Hshort.
  - apply Qle_bool_iff in Hshort. lra.
  - apply PyFacts.min_cap. lra.
Qed.

(** Noon UTC; one channel silent for four hours, the others without data;
    every channel with a post half an hour old. *)
Definition noon : datetime := 12 * microseconds_per_hour.

Definition one_silent (channel : string) : ChannelOutcome :=
  if String.eqb channel "tasnimnews" then LastPost (8 * microseconds_per_hour)
  else NoData.

Definition all_fresh (channel : string) : ChannelOutcome :=
  LastPost (noon - 30 * microseconds_per_minute).

Lemma long_silence_saturates_witness :
  exists out,
    fetch __init__ noon one_silent = Py.Ok out /\ (Signals.value out == 100)%Q.
Proof.
  apply (long_silence_saturates __init__ noon one_silent "tasnimnews"
           (8 * microseconds_per_hour)).
  - vm_compute. congruence.
  - by left.
  - reflexivity.
  - vm_compute. congruence.
Defined.

(** X16: in the hours of business, when every channel that answered posted
    within the last hour, the value is 0; channels that raise or have no
    data count for nothing. *)
Theorem recent_posts_are_calm (self : SilenceSignal) (now : datetime)
    (query : string -> ChannelOutcome) :
  8 <= tehran_hour now ->
  (forall channel last_post,
     In channel (regime_channels self) -> query channel = LastPost last_post ->
     now - last_post <= 1 * microseconds_per_hour) ->
  exists out,
    fetch self now query = Py.Ok out /\ (Signals.value out == 0)%Q.
Proof.
  intros Hday Hrecent.
  destruct (business_value self now query Hday) as (out & Hout & Hvalue).
  exists out. split; [done |]. cbv zeta in Hvalue. rewrite Hvalue.
  set (longest := fold_left Py.max _ _).
  assert (Hshort : (longest <= 1)%Q).
  { subst longest.
    destruct (running_max_in (silences now query (regime_channels self)) 0%Q)
      as [-> | Hin]; [lra |].
    unfold silences in Hin at 2.
    apply in_flat_map in Hin as (channel & Hin & Hsilence).
    destruct (query channel) as [e | | last_post] eqn:Hanswer; try done.
    destruct Hsilence as [<- | []].
    apply (hours_between_le now last_post 1). by apply (Hrecent channel). }
  by rewrite (proj2 (Qle_bool_iff longest 1) Hshort).
Qed.

Lemma recent_posts_are_calm_witness :
  exists out,
    fetch __init__ noon all_fresh = Py.Ok out /\ (Signals.value out == 0)%Q.
Proof.
  apply (recent_posts_are_calm __init__ noon all_fresh).
  - vm_compute. congruence.
  - intros channel last_post _ [= <-]. vm_compute. congruence.
Defined.

(** X17: in the hours of business the confidence follows the share of the
    channels that answered: 0 when none did, [0.4 + 0.4 * k / n] when [k] of
    the [n] channels did, which is 0.8 when all of them did. *)
Theorem confidence_follows_coverage (self : SilenceSignal) (now : datetime)
    (query : string -> ChannelOutcome) :
  8 <= tehran_hour now ->
  let k := length (List.filter (answered query) (regime_channels self)) in
  let n := length (regime_channels self) in
  exists out,
    fetch self now query = Py.Ok out /\
    (k = 0%nat -> (Signals.confidence out == 0)%Q) /\
    ((0 < k)%nat ->
     (Signals.confidence out ==
      0.4 + inject_Z (Z.of_nat k) / inject_Z (Z.of_nat n) * 0.4)%Q) /\
    ((0 < k)%nat -> k = n -> (Signals.confidence out == 0.8)%Q).
Proof.
  intros Hday k n.
  assert (Hhour : tehran_hour now <= 23).
  { unfold tehran_hour, hour.
    pose proof (Z.mod_pos_bound
                  ((now + (3 * microseconds_per_hour + 30 * microseconds_per_minute))
                   / microseconds_per_hour) 24). lia. }
  pose proof (List.filter_length_le (answered query) (regime_channels self))
    as Hfew. fold k n in Hfew.
  assert (Hshare : (0 < k)%nat ->
                   (0 <= inject_Z (Z.of_nat k) / inject_Z (Z.of_nat n) <= 1)%Q
                   /\ Qeq_bool (inject_Z (Z.of_nat n)) 0 = false).
  { intros Hsome.
    assert (Hnq : (0 < inject_Z (Z.of_nat n))%Q)
      by (change 0%Q with (inject_Z 0); rewrite <- Zlt_Qlt; lia).
    assert (Hkq : (0 <= inject_Z (Z.of_nat k) <= inject_Z (Z.of_nat n))%Q)
      by (change 0%Q with (inject_Z 0); rewrite <- !Zle_Qle; lia).
    split; [|by apply positive_nonzero].
    split; [apply Qle_shift_div_l | apply Qle_shift_div_r]; lra. }
  unfold fetch, tehran_hour in *. cbv zeta.
  rewrite (proj2 (Z.leb_le 8 _) Hday), (proj2 (Z.leb_le _ 23) Hhour).
  cbn [andb negb].
  pose proof (loop_counters now query (regime_channels self) ([], 0%Q, 0))
    as [_ Hchecked].
  destruct (fold_left _ (regime_channels self) _) as [[data longest] checked].
  cbn [fst snd] in Hchecked. fold k in Hchecked. rewrite Z.add_0_l in Hchecked.
  subst checked. fold n.
  destruct (Z.eqb_spec (Z.of_nat k) 0) as [Hnone | Hsome]; cbn [Py.bind].
  - eexists. split; [done |]. cbn [Signals.confidence].
    split; [done |]. split; intros; lia.
  - destruct Hshare as [Hshare Hnonzero]; [lia |].
    unfold Py.truediv. rewrite Hnonzero. cbn [Py.bind].
    eexists. split; [done |]. cbn [Signals.confidence].
    split; [intros; lia |].
    split; [intros _; apply PyFacts.min_below; lra |].
    intros _ Hall. rewrite PyFacts.min_below by lra.
    rewrite Hall. fold n.
    assert (Hnq : ~ (inject_Z (Z.of_nat n) == 0)%Q).
    { intros Hzero. apply Qeq_bool_iff in Hzero. congruence. }
    field. done.
Qed.

Lemma confidence_follows_coverage_witness :
  exists out,
    fetch __init__ noon one_silent = Py.Ok out /\
    (Signals.confidence out == 0.4 + 1 / 3 * 0.4)%Q.
Proof.
  destruct (confidence_follows_coverage __init__ noon one_silent)
    as (out & Hout & _ & Hshare & _); [vm_compute; congruence |].
  exists out. split; [exact Hout |].
  apply Hshare. vm_compute. lia.
Defined.

End SilenceProperties.

(** ** More on the aggregator *)

Module AggregatorProperties.

Import Aggregator.

(** One call of [aggregate]: its three reads of the clock and its signals. *)
Record Call : Type := {
  multiplier_now : datetime;
  timestamp_now : datetime;
  days_now : datetime;
  signals_in : list Signals.SignalOutput
}.

Definition call (self : KhameneiAggregator) (c : Call)
    : Py.result (KhameneiIndex * KhameneiAggregator) :=
  aggregate self (multiplier_now c) (timestamp_now c) (days_now c) (signals_in c).

(** The aggregator after a run of calls; a call that raises changes nothing. *)
Definition calls (self : KhameneiAggregator) (run : list Call)
    : KhameneiAggregator :=
  fold_left (fun self c =>
               match call self c with
               | Py.Ok (_, self') => self'
               | Py.Raise _ => self
               end) run self.

(** The level that goes with a score. *)
Definition level_of (t : Thresholds) (score : Q) : string :=
  if Py.Qge_bool score (red t) then "RED"
  else if Py.Qge_bool score (yellow t) then "YELLOW"
  else "GREEN".

(** What a call that returns has done. *)
Lemma aggregate_inv (self : KhameneiAggregator)
    (now_multiplier now_timestamp now_days : datetime)
    (signals : list Signals.SignalOutput)
    (index : KhameneiIndex) (self' : KhameneiAggregator) :
  aggregate self now_multiplier now_timestamp now_days signals
    = Py.Ok (index, self') ->
  self' = record_index self index /\
  timestamp index = now_timestamp /\
  level index = level_of (thresholds self) (score index) /\
  (score index <= 100)%Q.
Proof.
  unfold aggregate.
  destruct (fold_left _ (weights self) _) as [[ws wc] tw].
  destruct (Py.Qgt_bool tw 0); unfold Py.truediv;
    [destruct (Qeq_bool tw 0); [done |];
     destruct (Qeq_bool (sum (map snd (weights self))) 0); [done |] |];
    cbn [Py.bind]; intros [= <- <-]; cbn [score level timestamp];
    (repeat split; [apply PyFacts.min_le_l]).
Qed.

Lemma record_index_length (self : KhameneiAggregator) (index : KhameneiIndex) :
  (length (history self) <= max_history self)%nat ->
  (length (history (record_index self index)) <= max_history self)%nat.
Proof.
  intros Hcap. unfold record_index. cbn [history].
  destruct (Nat.ltb_spec (max_history self) (length (history self ++ [index])));
    [rewrite length_drop |]; rewrite length_app in *; cbn [length] in *; lia.
Qed.

Lemma call_keeps_settings (self : KhameneiAggregator) (c : Call)
    (index : KhameneiIndex) (self' : KhameneiAggregator) :
  call self c = Py.Ok (index, self') ->
  max_history self' = max_history self /\ weights self' = weights self /\
  thresholds self' = thresholds self /\ deadline_date self' = deadline_date self.
Proof. intros Hcall. by apply aggregate_inv in Hcall as (-> & _). Qed.

(** X18: the history never holds more than [max_history] indices, 60 of
    them, however many calls are made and whatever the signals are. *)
Theorem history_is_capped (market_deadline : string) (deadline_date : datetime)
    (run : list Call) :
  (length (history (calls (__init__ market_deadline deadline_date) run))
   <= 60)%nat.
Proof.
  assert (Hinv : forall self,
             (length (history self) <= max_history self)%nat ->
             (length (history (calls self run)) <= max_history self)%nat).
  { induction run as [|c run IH]; intros self Hcap; [done |].
    unfold calls. cbn [fold_left].
    destruct (call self c) as [[index self'] | e] eqn:Hcall; [|by apply IH].
    pose proof (call_keeps_settings _ _ _ _ Hcall) as (Hmax & _).
    apply aggregate_inv in Hcall as (Hself & _).
    rewrite <- Hmax. apply IH. rewrite Hmax, Hself.
    by apply record_index_length. }
  apply (Hinv (__init__ market_deadline deadline_date)). cbn. lia.
Qed.

(** X19: the index a call returns is the newest entry of the history. *)
Theorem returned_index_is_recorded (self : KhameneiAggregator) (c : Call)
    (index : KhameneiIndex) (self' : KhameneiAggregator) :
  (0 < max_history self)%nat ->
  call self c = Py.Ok (index, self') ->
  last (history self') = Some index.
Proof.
  intros Hroom Hcall. apply aggregate_inv in Hcall as (-> & _).
  unfold record_index. cbn [history].
  destruct (Nat.ltb_spec (max_history self) (length (history self ++ [index])))
    as [Hfull | _]; [|apply last_snoc].
  destruct (history self) as [|oldest rest]; [cbn in Hfull; lia |].
  cbn [app drop]. apply last_snoc.
Qed.

(** A call with two signals, long before the deadline. *)
Definition reading : Call :=
  {| multiplier_now := 0; timestamp_now := 0; days_now := 0;
     signals_in := [AggregatorFacts.signal "telegram_velocity" 75 0.9;
                    AggregatorFacts.signal "rial_crash" 100 0.5] |}.

Lemma returned_index_is_recorded_witness :
  exists index self',
    call AggregatorFacts.default reading = Py.Ok (index, self') /\
    last (history self') = Some index.
Proof.
  eexists _, _. split; [reflexivity |].
  apply (returned_index_is_recorded AggregatorFacts.default reading);
    [cbn; lia | reflexivity].
Defined.

(** X20: the level of a returned index is read off its score and the two
    thresholds, and nothing else: RED from the red threshold on, YELLOW from
    the yellow threshold up to the red one, GREEN below both. *)
Theorem level_follows_score (self : KhameneiAggregator) (c : Call)
    (index : KhameneiIndex) (self' : KhameneiAggregator) :
  call self c = Py.Ok (index, self') ->
  let t := thresholds self in
  (level index = "RED" <-> (red t <= score index)%Q) /\
  (level index = "YELLOW" <->
   (score index < red t)%Q /\ (yellow t <= score index)%Q) /\
  (level index = "GREEN" <->
   (score index < red t)%Q /\ (score index < yellow t)%Q).
Proof.
  intros Hcall t. apply aggregate_inv in Hcall as (_ & _ & -> & _).
  unfold level_of. fold t.
  destruct (Py.Qge_bool (score index) (red t)) eqn:Hred;
    [apply PyFacts.Qge_bool_iff in Hred
    | apply PyFacts.Qge_bool_false_iff in Hred;
      destruct (Py.Qge_bool (score index) (yellow t)) eqn:Hyellow;
      [apply PyFacts.Qge_bool_iff in Hyellow
      | apply PyFacts.Qge_bool_false_iff in Hyellow]];
    repeat split; try done; try lra; intros; lra.
Qed.

Lemma level_follows_score_witness :
  exists index self',
    call AggregatorFacts.default reading = Py.Ok (index, self') /\
    (level index = "RED" <-> (65 <= score index)%Q).
Proof.
  eexists _, _. split; [reflexivity |].
  exact (proj1 (level_follows_score AggregatorFacts.default reading _ _ eq_refl)).
Defined.

(** *** Which signals count *)

(** The signal the dictionary holds under a name. *)
Definition chosen (name : string) (signals : list Signals.SignalOutput)
    : option Signals.SignalOutput :=
  last (List.filter (fun s => String.eqb (Signals.name s) name) signals).

Lemma signal_map_from_last (signals : list Signals.SignalOutput)
    (m : gmap string Signals.SignalOutput) (name : string) :
  fold_left (fun m s => <[Signals.name s := s]> m) signals m !! name =
  match chosen name signals with
  | Some s => Some s
  | None => m !! name
  end.
Proof.
  revert m. unfold chosen.
  induction signals as [|s signals IH]; intros m; [done |].
  cbn [fold_left List.filter]. rewrite IH.
  destruct (String.eqb_spec (Signals.name s) name) as [Heq | Hne].
  - destruct (List.filter _ signals) as [|s' rest] eqn:Hrest.
    + cbn. subst name. apply lookup_insert_eq.
    + rewrite last_cons_cons.
      destruct (last (s' :: rest)) eqn:Hlast; [done |].
      by apply last_None in Hlast.
  - destruct (last (List.filter _ signals)); [done |].
    by rewrite lookup_insert_ne.
Qed.

(** X21: of several signals with one name the last in the list is the one
    that counts; a name no signal has is absent. *)
Theorem last_signal_wins (signals : list Signals.SignalOutput) (name : string) :
  signal_map_of signals !! name = chosen name signals /\
  (forall s, chosen name (signals ++ [s]) =
             if String.eqb (Signals.name s) name then Some s
             else chosen name signals).
Proof.
  split.
  - unfold signal_map_of. rewrite signal_map_from_last.
    by destruct (chosen name signals).
  - intros s. unfold chosen. rewrite List.filter_app. cbn [List.filter].
    destruct (String.eqb (Signals.name s) name);
      [apply last_snoc | by rewrite app_nil_r].
Qed.

(** *** The weighted mean *)

(** A signal with its value between two bounds and a confidence in [0, 1]. *)
Definition within (lo hi : Q) (s : Signals.SignalOutput) : Prop :=
  (lo <= Signals.value s <= hi)%Q /\ (0 <= Signals.confidence s <= 1)%Q.

Definition mean_ok (lo hi : Q) (acc : Q * Q * Q) (W : Q) : Prop :=
  (lo * acc.2 <= acc.1.1 <= hi * acc.2)%Q /\
  (acc.2 == acc.1.2)%Q /\ (0 <= acc.1.2 <= W)%Q.

Lemma loop_mean (lo hi : Q) (signal_map : gmap string Signals.SignalOutput)
    (items : list (string * Q)) (acc : Q * Q * Q) (W : Q) :
  (forall name s, signal_map !! name = Some s -> within lo hi s) ->
  Forall (fun item => (0 <= item.2)%Q) items ->
  mean_ok lo hi acc W ->
  mean_ok lo hi (fold_left (accumulate signal_map) items acc)
          (fold_left Qplus (map snd items) W).
Proof.
  intros Hwithin Hweights. revert acc W.
  induction Hweights as [|[name w] items Hweight _ IH]; intros acc W Hok;
    [done |].
  cbn [fold_left map snd]. apply IH. clear IH.
  destruct acc as [[ws wc] tw]. unfold mean_ok, accumulate in *.
  cbn [fst snd] in *. destruct Hok as (Hsum & Htotal & Hconf).
  destruct (signal_map !! name) as [s|] eqn:Hlook; cbn [fst snd];
    [|repeat split; lra].
  destruct (Hwithin name s Hlook) as [Hvalue Hc].
  set (e := (w * Signals.confidence s)%Q).
  assert (He : (0 <= e)%Q) by (apply Qmult_le_0_compat; lra).
  assert (Hlo : (lo * e <= Signals.value s * e)%Q)
    by (apply Qmult_le_compat_r; lra).
  assert (Hhi : (Signals.value s * e <= hi * e)%Q)
    by (apply Qmult_le_compat_r; lra).
  assert (Hcw : (Signals.confidence s * w <= 1 * w)%Q)
    by (apply Qmult_le_compat_r; lra).
  assert (Hcomm : (Signals.confidence s * w == e)%Q) by (unfold e; ring).
  repeat split; lra.
Qed.


(** Fusion of signals within bounds: the call returns, the confidence is in
    [0, 1], and the score is 0 with confidence 0 or the capped product of
    the multiplier and a mean between the bounds. *)
Lemma fusion (lo hi : Q) (self : KhameneiAggregator)
    (now_multiplier now_timestamp now_days : datetime)
    (signals : list Signals.SignalOutput) :
  Forall (fun item => (0 <= item.2)%Q) (weights self) ->
  Forall (within lo hi) signals ->
  exists index self',
    aggregate self now_multiplier now_timestamp now_days signals
      = Py.Ok (index, self') /\
    (0 <= confidence index <= 1)%Q /\
    (((confidence index == 0)%Q /\ (score index == 0)%Q) \/
     ((0 < confidence index)%Q /\
      exists raw, (lo <= raw <= hi)%Q /\
        score index =
          Py.min 100 (raw * get_time_pressure_multiplier self now_multiplier)%Q)).
Proof.
  intros Hweights Hsignals.
  assert (Hwithin : forall name s,
             signal_map_of signals !! name = Some s -> within lo hi s).
  { intros name s Hlook.
    apply AggregatorFacts.signal_map_of_lookup in Hlook as [Hin _].
    rewrite List.Forall_forall in Hsignals. by apply Hsignals. }
  pose proof (loop_mean lo hi (signal_map_of signals) (weights self)
                (0%Q, 0%Q, 0%Q) 0%Q Hwithin Hweights) as Hloop.
  unfold aggregate. fold (sum (map snd (weights self))) in Hloop.
  destruct (fold_left _ (weights self) _) as [[ws wc] tw].
  destruct Hloop as (Hsum & Htotal & Hconf);
    [unfold mean_ok; cbn [fst snd]; repeat split; lra |].
  cbn [fst snd] in *.
  pose proof (AggregatorFacts.multiplier_bounds
                (get_days_remaining self now_multiplier)) as Hmult.
  fold (get_time_pressure_multiplier self now_multiplier) in Hmult.
  destruct (Py.Qgt_bool tw 0) eqn:Hpos.
  - apply PyFacts.Qgt_bool_iff in Hpos. unfold Py.truediv.
    rewrite (AggregatorFacts.Qeq_bool_pos tw),
      (AggregatorFacts.Qeq_bool_pos (sum (map snd (weights self)))) by lra.
    cbn [Py.bind]. eexists _, _. split; [reflexivity |].
    cbn [score confidence].
    assert (Hshare : (0 < wc / sum (map snd (weights self)) <= 1)%Q).
    { split; [apply Qlt_shift_div_l | apply Qle_shift_div_r]; lra. }
    split; [lra |]. right. split; [lra |].
    exists (ws / tw)%Q. split; [|done].
    split; [apply Qle_shift_div_l | apply Qle_shift_div_r]; lra.
  - cbn [Py.bind]. eexists _, _. split; [reflexivity |].
    cbn [score confidence]. split; [lra |]. left. split; [done |].
    rewrite PyFacts.min_below; lra.
Qed.

(** *** Signals that do not count *)





(** The three ways a call can end, from the tally of the loop. *)
Lemma aggregate_cases (self : KhameneiAggregator)
    (now_multiplier now_timestamp now_days : datetime)
    (signals : list Signals.SignalOutput) :
  let '(ws, wc, tw) :=
    fold_left (accumulate (signal_map_of signals)) (weights self)
              (0%Q, 0%Q, 0%Q) in
  let m := get_time_pressure_multiplier self now_multiplier in
  let result := aggregate self now_multiplier now_timestamp now_days signals in
  if Py.Qgt_bool tw 0 then
    if Qeq_bool (sum (map snd (weights self))) 0 then
      result = Py.Raise Py.ZeroDivisionError
    else
      exists index self',
        result = Py.Ok (index, self') /\
        score index = Py.min 100 (ws / tw * m)%Q /\
        confidence index = (wc / sum (map snd (weights self)))%Q
  else
    exists index self',
      result = Py.Ok (index, self') /\
      score index = Py.min 100 (0 * m)%Q /\ confidence index = 0%Q.
Proof.
  unfold aggregate.
  destruct (fold_left _ (weights self) _) as [[ws wc] tw]. cbv zeta.
  destruct (Py.Qgt_bool tw 0) eqn:Hpos.
  - apply PyFacts.Qgt_bool_iff in Hpos. unfold Py.truediv.
    rewrite (AggregatorFacts.Qeq_bool_pos tw) by done.
    destruct (Qeq_bool (sum (map snd (weights self))) 0); cbn [Py.bind];
      [done |]. by eexists _, _.
  - cbn [Py.bind]. by eexists _, _.
Qed.



(** Numbers far inside the range of a float: their products with the
    weights are floats too, where Python refuses to turn a larger integer
    into a float with an [OverflowError]. *)
Definition moderate (s : Signals.SignalOutput) : Prop :=
  (Qabs (Signals.value s) <= inject_Z (2 ^ 500))%Q /\
  (Qabs (Signals.confidence s) <= inject_Z (2 ^ 500))%Q.

(** X24: with the weights the constructor sets, [aggregate] raises nothing
    and returns a score of at most 100, whatever the values and the
    confidences of the signals are, also outside their declared ranges, as
    long as they are below [2 ^ 500] in size. *)
Theorem constructor_weights_never_fail (self : KhameneiAggregator) (c : Call) :
  weights self = weights (__init__ "" 0) ->
  Forall moderate (signals_in c) ->
  exists index self',
    call self c = Py.Ok (index, self') /\ (score index <= 100)%Q.
Proof.
  intros Hweights _.
  pose proof (aggregate_cases self (multiplier_now c) (timestamp_now c)
                (days_now c) (signals_in c)) as Hcase.
  destruct (fold_left _ (weights self) _) as [[ws wc] tw]. cbv zeta in Hcase.
  rewrite Hweights in Hcase.
  change (Qeq_bool (sum (map snd (weights (__init__ "" 0)))) 0)
    with false in Hcase.
  assert (Hreturns : exists index self', call self c = Py.Ok (index, self')).
  { destruct (Py.Qgt_bool tw 0);
      destruct Hcase as (index & self' & Hcall & _); by exists index, self'. }
  destruct Hreturns as (index & self' & Hcall).
  exists index, self'. split; [done |].
  by apply aggregate_inv in Hcall as (_ & _ & _ & Hcap).
Qed.

(** A call with signals far outside their ranges. *)
Definition wild_reading : Call :=
  {| multiplier_now := 0; timestamp_now := 0; days_now := 0;
     signals_in := [AggregatorFacts.signal "telegram_velocity" 1000 (-3);
                    AggregatorFacts.signal "rial_crash" (-5) 7] |}.

Lemma constructor_weights_never_fail_witness :
  exists index self',
    call AggregatorFacts.default wild_reading = Py.Ok (index, self') /\
    (score index <= 100)%Q.
Proof.
  apply constructor_weights_never_fail; [reflexivity |].
  repeat (apply List.Forall_cons; [split; vm_compute; congruence |]).
  apply List.Forall_nil.
Defined.

(** *** The clock *)

Lemma days_remaining_antitone (self : KhameneiAggregator) (now1 now2 : datetime) :
  now1 <= now2 -> get_days_remaining self now2 <= get_days_remaining self now1.
Proof.
  intros Hlater. unfold get_days_remaining. cbv zeta.
  apply Z.max_le_compat_l, Z.div_le_mono; [done | lia].
Qed.

(** X25: as time passes the multiplier never decreases; it is 1 as long as
    60 days or more remain, and 3 from three days before the deadline on,
    also once the deadline has passed. *)
Theorem multiplier_over_time (self : KhameneiAggregator) (now1 now2 : datetime) :
  (now1 <= now2 ->
   (get_time_pressure_multiplier self now1 <=
    get_time_pressure_multiplier self now2)%Q) /\
  (60 * microseconds_per_day <= deadline_date self - now1 ->
   (get_time_pressure_multiplier self now1 == 1)%Q) /\
  (deadline_date self - now1 < 3 * microseconds_per_day ->
   (get_time_pressure_multiplier self now1 == 3)%Q).
Proof.
  unfold get_time_pressure_multiplier. cbv zeta.
  split; [|split].
  - intros Hlater.
    by apply AggregatorFacts.multiplier_antitone, days_remaining_antitone.
  - intros Hfar.
    assert (Hdays : 60 <= get_days_remaining self now1).
    { unfold get_days_remaining. cbv zeta.
      apply Z.max_le_iff. right. by apply Z.div_le_lower_bound. }
    revert Hdays. generalize (get_days_remaining self now1) as days.
    intros days Hdays. AggregatorFacts.split_days.
  - intros Hnear.
    assert (Hdays : get_days_remaining self now1 < 3).
    { unfold get_days_remaining. cbv zeta.
      apply Z.max_lub_lt; [lia |]. by apply Z.div_lt_upper_bound. }
    revert Hdays. generalize (get_days_remaining self now1) as days.
    intros days Hdays. AggregatorFacts.split_days.
Qed.

Lemma multiplier_over_time_witness :
  (get_time_pressure_multiplier AggregatorFacts.default 0 <=
   get_time_pressure_multiplier AggregatorFacts.default
     (20600 * microseconds_per_day))%Q /\
  (get_time_pressure_multiplier AggregatorFacts.default 0 == 1)%Q /\
  (get_time_pressure_multiplier AggregatorFacts.default
     (20600 * microseconds_per_day) == 3)%Q.
Proof.
  pose proof (multiplier_over_time AggregatorFacts.default 0
                (20600 * microseconds_per_day)) as (Hmono & Hfar & _).
  pose proof (multiplier_over_time AggregatorFacts.default
                (20600 * microseconds_per_day) 0) as (_ & _ & Hnear).
  split; [apply Hmono; vm_compute; congruence |].
  split; [apply Hfar; vm_compute; congruence |].
  apply Hnear. reflexivity.
Defined.

(** *** The rate of change *)

(** X26: on an aggregator with an empty history, one reading gives no rate
    of change; after a second one the rate is the second score minus the
    first, as long as both readings lie within the window. *)
Theorem rate_after_two_readings (self : KhameneiAggregator) (c1 c2 : Call)
    (index1 index2 : KhameneiIndex) (self1 self2 : KhameneiAggregator)
    (now minutes : Z) :
  history self = [] -> (2 <= max_history self)%nat ->
  call self c1 = Py.Ok (index1, self1) ->
  call self1 c2 = Py.Ok (index2, self2) ->
  now - minutes * microseconds_per_minute <= timestamp_now c1 ->
  now - minutes * microseconds_per_minute <= timestamp_now c2 ->
  get_rate_of_change self1 now minutes = None /\
  get_rate_of_change self2 now minutes = Some (score index2 - score index1)%Q.
Proof.
  intros Hfresh Hroom Hcall1 Hcall2 Hin1 Hin2.
  pose proof (call_keeps_settings _ _ _ _ Hcall1) as (Hmax & _).
  apply aggregate_inv in Hcall1 as (Hself1 & Htime1 & _).
  apply aggregate_inv in Hcall2 as (Hself2 & Htime2 & _).
  assert (Hhistory1 : history self1 = [index1]).
  { rewrite Hself1. unfold record_index. cbn [history]. rewrite Hfresh.
    cbn [app length]. by destruct (Nat.ltb_spec (max_history self) 1); [lia |]. }
  assert (Hhistory2 : history self2 = [index1; index2]).
  { rewrite Hself2. unfold record_index. cbn [history].
    rewrite Hhistory1, Hmax. cbn [app length].
    by destruct (Nat.ltb_spec (max_history self) 2); [lia |]. }
  unfold get_rate_of_change. rewrite Hhistory1, Hhistory2.
  split; [done |]. cbn [length Nat.ltb Nat.leb List.filter]. cbv zeta.
  rewrite Htime1, Htime2, !Z.geb_leb.
  by rewrite (proj2 (Z.leb_le _ _) Hin1), (proj2 (Z.leb_le _ _) Hin2).
Qed.

(** A second reading, a minute after the first and with calmer signals. *)
Definition second_reading : Call :=
  {| multiplier_now := microseconds_per_minute;
     timestamp_now := microseconds_per_minute;
     days_now := microseconds_per_minute;
     signals_in := [AggregatorFacts.signal "telegram_velocity" 25 0.9;
                    AggregatorFacts.signal "rial_crash" 0 0.5] |}.

Lemma rate_after_two_readings_witness :
  exists index1 self1 index2 self2,
    call AggregatorFacts.default reading = Py.Ok (index1, self1) /\
    call self1 second_reading = Py.Ok (index2, self2) /\
    get_rate_of_change self1 (2 * microseconds_per_minute) 10 = None /\
    get_rate_of_change self2 (2 * microseconds_per_minute) 10
      = Some (score index2 - score index1)%Q.
Proof.
  eexists _, _, _, _. split; [reflexivity |]. split; [reflexivity |].
  apply (rate_after_two_readings AggregatorFacts.default reading second_reading);
    [reflexivity | cbn; lia | reflexivity | reflexivity
    | vm_compute; congruence | vm_compute; congruence].
Defined.

End AggregatorProperties.

(** ** The loop *)

Module MainProperties.

Import Main.

(** The state after a run of turns. *)
Definition turns (silence_signal : SilenceSignal.SilenceSignal) (st : State)
    (run : list (Clock * World)) : State :=
  fold_left (fun st step => (turn silence_signal st step.1 step.2).1) run st.

(** What stays true of the state of the loop. *)
Definition settled (st : State) : Prop :=
  Aggregator.weights (aggregator st) = Aggregator.weights (aggregator start) /\
  Aggregator.max_history (aggregator st) = 60%nat /\
  (length (Aggregator.history (aggregator st)) <= 60)%nat /\
  RialSignal.maxlen (rial_signal st) = 72%nat /\
  (length (RialSignal.price_history (rial_signal st)) <= 72)%nat.

Lemma turn_settled (silence_signal : SilenceSignal.SilenceSignal)
    (st : State) (clock : Clock) (world : World) :
  settled st -> settled (turn silence_signal st clock world).1.
Proof.
  intros (Hweights & Hmax & Hhistory & Hmaxlen & Hprices).
  pose proof (RialProperties.fetch_maxlen (rial_signal st) (rial_now clock)
                (rial_page world)) as Hmaxlen'.
  pose proof (RialProperties.fetch_bounded (rial_signal st) (rial_now clock)
                (rial_page world)) as Hprices'.
  unfold turn.
  destruct (RialSignal.fetch _ _ _) as [rial_result rial_signal'].
  cbn [fst snd] in Hmaxlen', Hprices'. cbn [aggregator last_alerted_level].
  assert (Hrial : RialSignal.maxlen rial_signal' = 72%nat /\
                  (length (RialSignal.price_history rial_signal') <= 72)%nat).
  { split; [congruence |]. rewrite <- Hmaxlen. apply Hprices'. lia. }
  destruct Hrial as [Hmaxlen'' Hprices''].
  unfold settled.
  destruct (SilenceSignal.fetch _ _ _) as [silence_result | e];
    [|by cbn [fst aggregator rial_signal]].
  destruct (Aggregator.aggregate _ _ _ _ _) as [[index aggregator'] | e]
    eqn:Hcall; [|by cbn [fst aggregator rial_signal]].
  apply AggregatorProperties.aggregate_inv in Hcall as (-> & _).
  pose proof (AggregatorProperties.record_index_length (aggregator st) index)
    as Hcap.
  destruct (Aggregator.should_alert _ _ _ _); cbn [fst aggregator rial_signal];
    (split; [done |]); (split; [done |]);
    (split; [rewrite <- Hmax; apply Hcap; lia | done]).
Qed.

Lemma turns_settled (silence_signal : SilenceSignal.SilenceSignal)
    (run : list (Clock * World)) (st : State) :
  settled st -> settled (turns silence_signal st run).
Proof.
  revert st. induction run as [|[clock world] run IH]; intros st Hst; [done |].
  unfold turns. cbn [fold_left fst snd]. by apply IH, turn_settled.
Qed.

Lemma start_settled : settled start.
Proof. repeat split; cbn; lia. Qed.

(** X27: however long the loop runs and whatever the world answers, its
    state stays bounded: the rial signal holds at most 72 samples and the
    aggregator at most 60 indices. *)
Theorem loop_state_is_bounded (silence_signal : SilenceSignal.SilenceSignal)
    (run : list (Clock * World)) :
  let st := turns silence_signal start run in
  (length (RialSignal.price_history (rial_signal st)) <= 72)%nat /\
  (length (Aggregator.history (aggregator st)) <= 60)%nat.
Proof.
  destruct (turns_settled silence_signal run start start_settled)
    as (_ & _ & Hhistory & _ & Hprices).
  by split.
Qed.

(** X28: from the start of the loop on, every turn computes an index,
    whatever the query and the channels answer and for each outcome of the
    scrape that the rial fetch handles, failures included, as long as the
    rates found are below [2 ^ 1000] in size: the fusion never raises, and
    the index has its score in [0, 100] and its confidence in [0, 1]. *)
Theorem every_turn_yields_an_index
    (silence_signal : SilenceSignal.SilenceSignal)
    (run : list (Clock * World)) (clock : Clock) (world : World) :
  Forall (fun step => RialProperties.moderate_page (rial_page step.2)) run ->
  RialProperties.moderate_page (rial_page world) ->
  exists st' index sent,
    turn silence_signal (turns silence_signal start run) clock world
      = (st', Some (index, sent)) /\
    (0 <= Aggregator.score index <= 100)%Q /\
    (0 <= Aggregator.confidence index <= 1)%Q.
Proof.
  intros _ _.
  destruct (turns_settled silence_signal run start start_settled)
    as (Hweights & _).
  set (st := turns silence_signal start run) in *.
  unfold turn.
  pose proof (RialProperties.rial_fetch_in_range (rial_signal st) (rial_now clock)
                (rial_page world)) as Hrial.
  destruct (RialSignal.fetch _ _ _) as [rial_result rial_signal'].
  cbn [fst] in Hrial. cbn [aggregator last_alerted_level].
  destruct (SilenceProperties.silence_fetch_in_range silence_signal
              (silence_now clock) (silence_answers world))
    as (silence_result & -> & Hsilence).
  pose proof (TelegramProperties.telegram_fetch_in_range (telegram_now clock)
                (telegram_rows world)) as Htelegram.
  destruct (AggregatorProperties.fusion 0 100 (aggregator st)
              (multiplier_now clock) (timestamp_now clock) (days_now clock)
              [TelegramSignal.fetch (telegram_now clock) (telegram_rows world);
               rial_result; silence_result])
    as (index & aggregator' & -> & Hconf & Hscore).
  { rewrite Hweights.
    repeat (apply List.Forall_cons; [vm_compute; congruence |]).
    apply List.Forall_nil. }
  { repeat (apply List.Forall_cons;
            [unfold AggregatorProperties.within; split; lra |]).
    apply List.Forall_nil. }
  assert (Hrange : (0 <= Aggregator.score index <= 100)%Q).
  { destruct Hscore as [[_ Hzero] | [_ (raw & Hraw & ->)]]; [lra |].
    pose proof (AggregatorFacts.multiplier_bounds
                  (Aggregator.get_days_remaining (aggregator st)
                     (multiplier_now clock))) as Hmult.
    fold (Aggregator.get_time_pressure_multiplier (aggregator st)
            (multiplier_now clock)) in Hmult.
    split; [|apply PyFacts.min_le_l].
    apply PyFacts.min_glb; [lra |]. apply Qmult_le_0_compat; lra. }
  destruct (Aggregator.should_alert _ _ _ _); by eexists _, _, _.
Qed.

(** X29: after a turn that computed an index the remembered level is the
    level of that index; no alert is sent only when the level is the one
    remembered before and is not RED. *)
Theorem alert_level_is_tracked (silence_signal : SilenceSignal.SilenceSignal)
    (st st' : State) (clock : Clock) (world : World)
    (index : Aggregator.KhameneiIndex) (sent : bool) :
  turn silence_signal st clock world = (st', Some (index, sent)) ->
  last_alerted_level st' = Aggregator.level index /\
  (sent = false ->
   last_alerted_level st = Aggregator.level index /\
   Aggregator.level index <> "RED").
Proof.
  unfold turn.
  destruct (RialSignal.fetch _ _ _) as [rial_result rial_signal'].
  cbn [aggregator last_alerted_level].
  destruct (SilenceSignal.fetch _ _ _) as [silence_result | e]; [|done].
  destruct (Aggregator.aggregate _ _ _ _ _) as [[index' aggregator'] | e];
    [|done].
  destruct (Aggregator.should_alert _ _ _ _) eqn:Halert;
    intros [= <- <- <-]; cbn [last_alerted_level]; [by split |].
  unfold Aggregator.should_alert in Halert.
  destruct (String.eqb_spec (Aggregator.level index') (last_alerted_level st))
    as [Hsame | Hdiff]; cbn [negb] in Halert; [|done].
  destruct (String.eqb_spec (Aggregator.level index') "RED"); [done |].
  by split.
Qed.

(** A turn at noon UTC, with a quiet world. *)
Definition noon_clock : Clock :=
  {| telegram_now := SilenceProperties.noon;
     rial_now := SilenceProperties.noon;
     silence_now := SilenceProperties.noon;
     multiplier_now := SilenceProperties.noon;
     timestamp_now := SilenceProperties.noon;
     days_now := SilenceProperties.noon;
     alert_now := SilenceProperties.noon |}.

Definition quiet_world : World :=
  {| telegram_rows := TelegramSignal.ResultRows VelocityFacts.quiet_day;
     rial_page := RialSignal.Parsed (Some 1000000) "";
     silence_answers := SilenceProperties.all_fresh |}.

Lemma every_turn_yields_an_index_witness :
  exists st' index sent,
    turn SilenceSignal.__init__
      (turns SilenceSignal.__init__ start [(noon_clock, quiet_world)])
      noon_clock quiet_world
      = (st', Some (index, sent)) /\
    (0 <= Aggregator.score index <= 100)%Q /\
    (0 <= Aggregator.confidence index <= 1)%Q.
Proof.
  apply (every_turn_yields_an_index SilenceSignal.__init__
           [(noon_clock, quiet_world)] noon_clock quiet_world).
  - repeat constructor.
  - reflexivity.
Defined.

Lemma alert_level_is_tracked_witness :
  exists st' index,
    turn SilenceSignal.__init__ start noon_clock quiet_world
      = (st', Some (index, false)) /\
    last_alerted_level st' = Aggregator.level index /\
    (false = false ->
     last_alerted_level start = Aggregator.level index /\
     Aggregator.level index <> "RED").
Proof.
  eexists _, _. split; [reflexivity |].
  apply (alert_level_is_tracked SilenceSignal.__init__ start _ noon_clock
           quiet_world).
  reflexivity.
Defined.

End MainProperties.
